(** * Meat-World-Project: the dashboard's data preparation, embedded in Rocq

    The repository is one Python script, [project-code.py].  It loads four
    tables and prepares from them the input of a map, of a line chart, of a
    histogram and of a multi-line chart.  This file embeds the data
    preparation: a table is the list of its rows in row order, a value
    column holds the cells pandas leaves there, and each pandas call of the
    script is one function on such lists.

    Modelling conventions.
    - A value of a numeric column is a [number]: a finite value, held as an
      exact rational, or one of the two IEEE infinities, which [read_csv]
      and [to_numeric] read from the text inf.  The missing value (NaN, or
      [None] in a float column) is [None]; the sum of the two infinities is
      NaN.  Finite sums are exact: the rounding and the overflow of float64
      and the wrap-around of an integer column are outside the model, and no
      property below rests on the value of a sum of two finite numbers.
    - [Year] is an integer ([Z]) and [Country] a string; a string is the
      sequence of its bytes.
    - The CSV files are remote: the header and the rows [pd.read_csv]
      returns are inputs of the functions below.
    - The geocoder and the number parser behind [pd.to_numeric] are library
      code: both are parameters of the functions that call them.  The
      geocoder returns a location or [None]; a run in which a library call
      raises (a network error) ends the script and is not modelled, the
      [TypeError] of [nlargest] on a column of dtype [object] apart.
    - A sort keeps rows of equal value in their order.  [sort_values] does
      not promise that order, and no property below rests on it.

    Part I holds the definitions, Part II the lemmas and the properties,
    Part III further properties of the script. *)

From Stdlib Require Import List ZArith QArith Bool Lia.
From Stdlib Require Import Strings.String Strings.Ascii.
From Stdlib Require Import Permutation Sorting.Sorted.
Import ListNotations.

Local Open Scope list_scope.

(** * Part I: the embedding *)

(** ** Data model *)

(** A number of a float column: finite, or an infinity. *)
Inductive number : Type :=
| Finite (q : Q)
| PosInf
| NegInf.

Definition number_zero : number := Finite (0 # 1).

(** A cell of a value column as [pd.read_csv] leaves it: a number, a string
    (the column then has dtype [object]) or the missing value. *)
Inductive cell : Type :=
| CNum (x : number)
| CStr (s : string)
| CNaN.

(** A row of a loaded dataset.  [V] is the type of the value column
    ([Meat_Production], [Agricultural_Area] or [Obesity], by dataset): [cell]
    as loaded, [option number] once numeric.  The script reads no other column. *)
Record row (V : Type) : Type := mkRow {
  Year : Z;
  Country : string;
  Value : V
}.
Arguments mkRow {V} _ _ _.
Arguments Year {V} _.
Arguments Country {V} _.
Arguments Value {V} _.

(** A row of the consumption dataset: the two columns the script reads. *)
Record consumption_row : Type := mkConsumption {
  cons_Country : string;
  Kilograms_capita : cell
}.

(** What [geolocator.geocode] returns when it finds a place. *)
Record Location : Type := mkLocation {
  latitude : Q;
  longitude : Q
}.

(** A row of the frame [get_country_coordinates] builds. *)
Record CountryCoordinate : Type := mkCoordinate {
  coord_Country : string;
  coord_Latitude : option Q;
  coord_Longitude : option Q
}.

(** A row of [filtered_data] after the merge with the coordinates. *)
Record map_row (V : Type) : Type := mkMapRow {
  data_row : row V;
  Latitude : option Q;
  Longitude : option Q
}.
Arguments mkMapRow {V} _ _ _.
Arguments data_row {V} _.
Arguments Latitude {V} _.
Arguments Longitude {V} _.

(** The two radio buttons. *)
Inductive dataset_choice : Type :=
| Meat_Production
| Agricultural_Land_Use
| Meat_Consumption
| Obesity.

Inductive visualization_choice : Type :=
| Map
| Line_Graph.

(** ** pandas primitives *)

(** [Series.isin(values)] on one string. *)
Definition isin (x : string) (values : list string) : bool :=
  existsb (String.eqb x) values.

(** [mapper.get(name, name)] for a dict written as its list of items. *)
Fixpoint dict_get (mapper : list (string * string)) (name : string) : string :=
  match mapper with
  | [] => name
  | (k, v) :: rest => if String.eqb name k then v else dict_get rest name
  end.

(** [df.rename(columns=mapper)], on the column index. *)
Definition rename (mapper : list (string * string)) (columns : list string)
  : list string :=
  map (dict_get mapper) columns.

(** [str.replace] of the double quote (byte 34) by the empty string: every
    double quote is removed. *)
Definition quote : ascii := ascii_of_nat 34.

Fixpoint str_replace_quote (s : string) : string :=
  match s with
  | EmptyString => EmptyString
  | String c t =>
      if Ascii.eqb c quote then str_replace_quote t
      else String c (str_replace_quote t)
  end.

(** Python's [str.isspace] on the ASCII range.  [str.strip] also removes
    the white space outside ASCII (the no-break space and the like), which a
    string of bytes does not show: [strip] below is [str.strip] on names in
    ASCII. *)
Definition isspace (c : ascii) : bool :=
  let n := nat_of_ascii c in
  ((9 <=? n) && (n <=? 13)) || ((28 <=? n) && (n <=? 32)).

Fixpoint lstrip (s : string) : string :=
  match s with
  | EmptyString => EmptyString
  | String c t => if isspace c then lstrip t else s
  end.

Fixpoint rstrip (s : string) : string :=
  match s with
  | EmptyString => EmptyString
  | String c t =>
      match rstrip t with
      | EmptyString => if isspace c then EmptyString else String c EmptyString
      | t' => String c t'
      end
  end.

(** [str.strip()]. *)
Definition strip (s : string) : string := lstrip (rstrip s).

(** [pd.to_numeric(column, errors="coerce")] on one cell; [parse_number] is
    the library's reading of a string as a number, [None] when it has
    none. *)
Definition to_numeric (parse_number : string -> option number) (c : cell) : option number :=
  match c with
  | CNum q => Some q
  | CStr s => parse_number s
  | CNaN => None
  end.

(** The assignment [frame[column] = pd.to_numeric(frame[column], ...)]. *)
Definition coerce_row (parse_number : string -> option number) (r : row cell)
  : row (option number) :=
  mkRow (Year r) (Country r) (to_numeric parse_number (Value r)).

Definition coerce_map_row (parse_number : string -> option number) (r : map_row cell)
  : map_row (option number) :=
  mkMapRow (coerce_row parse_number (data_row r)) (Latitude r) (Longitude r).

(** The rows [pd.merge(left, right, on="Country", how="left")] makes of one
    left row: one per matching right row, in the right frame's order, and one
    with missing coordinates when there is none. *)
Definition merge_row {V : Type} (right : list CountryCoordinate) (l : row V)
  : list (map_row V) :=
  match filter (fun c => String.eqb (coord_Country c) (Country l)) right with
  | [] => [mkMapRow l None None]
  | matches =>
      map (fun c => mkMapRow l (coord_Latitude c) (coord_Longitude c)) matches
  end.

Definition merge {V : Type} (left : list (row V)) (right : list CountryCoordinate)
  : list (map_row V) :=
  flat_map (merge_row right) left.

Definition notna (x : option Q) : bool :=
  match x with Some _ => true | None => false end.

(** [dropna(subset=["Latitude", "Longitude"])]. *)
Definition dropna {V : Type} (frame : list (map_row V)) : list (map_row V) :=
  filter (fun r => notna (Latitude r) && notna (Longitude r)) frame.

(** *** Group keys and their order *)

Definition key : Type := (Z * string)%type.

Definition key_of {V : Type} (r : row V) : key := (Year r, Country r).

(** Keys are ordered by [Year], then by [Country] (byte by byte). *)
Definition key_compare (a b : key) : comparison :=
  match Z.compare (fst a) (fst b) with
  | Eq => String.compare (snd a) (snd b)
  | c => c
  end.

Definition key_eqb (a b : key) : bool :=
  Z.eqb (fst a) (fst b) && String.eqb (snd a) (snd b).

Fixpoint insert_key (k : key) (ks : list key) : list key :=
  match ks with
  | [] => [k]
  | k' :: rest =>
      match key_compare k k' with
      | Lt => k :: ks
      | Eq => ks
      | Gt => k' :: insert_key k rest
      end
  end.

(** The group keys of a frame: the keys present, each once, in increasing
    order ([groupby] sorts them). *)
Definition group_keys (ks : list key) : list key :=
  fold_right insert_key [] ks.

(** The sum of two numbers of a float column; the sum of the two infinities
    is NaN. *)
Definition number_add (a b : number) : option number :=
  match a, b with
  | Finite x, Finite y => Some (Finite (Qplus x y))
  | PosInf, NegInf => None
  | NegInf, PosInf => None
  | PosInf, _ => Some PosInf
  | _, PosInf => Some PosInf
  | NegInf, _ => Some NegInf
  | _, NegInf => Some NegInf
  end.

(** One step of a sum: a missing value is skipped, and a sum that has become
    NaN stays NaN. *)
Definition add_skipna (acc v : option number) : option number :=
  match v with
  | None => acc
  | Some x =>
      match acc with
      | None => None
      | Some a => number_add a x
      end
  end.

(** [sum] of a group: missing values are skipped, an empty sum is 0, and the
    sum is NaN when the two infinities meet. *)
Definition sum_skipna (values : list (option number)) : option number :=
  fold_left add_skipna values (Some number_zero).

(** [frame.groupby(["Year", "Country"])[column].sum().reset_index()]. *)
Definition groupby_sum (frame : list (row (option number))) : list (row (option number)) :=
  map (fun k =>
         mkRow (fst k) (snd k)
               (sum_skipna
                  (map Value (filter (fun r => key_eqb (key_of r) k) frame))))
      (group_keys (map key_of frame)).

(** *** Sorting by a value column, descending *)

(** [ge_value a b]: [a] may stand before [b] in descending order; missing
    values come last. *)
Definition number_leb (a b : number) : bool :=
  match a, b with
  | NegInf, _ => true
  | _, PosInf => true
  | Finite x, Finite y => Qle_bool x y
  | _, _ => false
  end.

Definition ge_value (a b : option number) : bool :=
  match a, b with
  | Some x, Some y => number_leb y x
  | _, None => true
  | None, Some _ => false
  end.

Fixpoint insert_desc {A : Type} (by_ : A -> option number) (x : A) (l : list A) : list A :=
  match l with
  | [] => [x]
  | y :: rest =>
      if ge_value (by_ x) (by_ y) then x :: l else y :: insert_desc by_ x rest
  end.

(** [frame.sort_values(by=column, ascending=False)]: the largest value first,
    missing values last.  Rows with equal values keep their order here; the
    library's default sort may order them otherwise, and no property below
    rests on their order. *)
Definition sort_values_desc {A : Type} (by_ : A -> option number) (frame : list A)
  : list A :=
  fold_right (insert_desc by_) [] frame.

Definition head {A : Type} (n : nat) (frame : list A) : list A := firstn n frame.

Definition is_str (c : cell) : bool :=
  match c with CStr _ => true | _ => false end.

Definition numeric_value (c : cell) : option number :=
  match c with CNum q => Some q | _ => None end.

(** The column [Kilograms/capita] of a row, read as a number. *)
Definition consumption_value (r : consumption_row) : option number :=
  numeric_value (Kilograms_capita r).

(** The dtype [read_csv] gives a column is [object] when the column holds a
    string, and also when it is empty (a file with a header and no row). *)
Definition dtype_object (column : list cell) : bool :=
  match column with
  | [] => true
  | _ => existsb is_str column
  end.

(** [data.nlargest(n, 'Kilograms/capita')]: the first [n] rows in descending
    order of the column (keep='first').  On a column of dtype [object] it
    raises [TypeError]: [None]. *)
Definition nlargest (n : nat) (data : list consumption_row)
  : option (list consumption_row) :=
  if dtype_object (map Kilograms_capita data) then None
  else Some (head n (sort_values_desc consumption_value data)).

(** [data['Year'].max()]: missing on an empty frame. *)
Definition Year_max {V : Type} (data : list (row V)) : option Z :=
  match data with
  | [] => None
  | r :: rest => Some (fold_left Z.max (map Year rest) (Year r))
  end.

(** ** The loaders, on the header [pd.read_csv] returns *)

Definition meat_raw_column : string :=
  "Meat, total | 00001765 || Production | 005510 || tonnes".

Definition obesity_raw_column : string :=
  "Prevalence of obesity among adults, BMI >= 30 (crude estimate) (%) - Sex: both sexes - Age group: 18+  years".

Definition load_meat_data (csv_columns : list string) : list string :=
  rename [("Entity", "Country"); (meat_raw_column, "Meat_Production")]%string
         csv_columns.

Definition load_agriculture_data (csv_columns : list string) : list string :=
  rename [("Entity", "Country"); ("Land use: Agriculture", "Agricultural_Area")]%string
         csv_columns.

Definition load_consumption_data (csv_columns : list string) : list string :=
  map (fun name => strip (str_replace_quote name)) csv_columns.

Definition load_obesity_data (csv_columns : list string) : list string :=
  rename [(obesity_raw_column, "Obesity")]%string
         (rename [("Entity", "Country")]%string csv_columns).

(** ** The coordinate resolver *)

(** The tuple appended for one country (the body of the loop). *)
Definition coordinate_of (geocode : string -> option Location) (country : string)
  : CountryCoordinate :=
  match geocode country with
  | Some location =>
      mkCoordinate country (Some (latitude location)) (Some (longitude location))
  | None => mkCoordinate country None None
  end.

(** [get_country_coordinates]: the loop appends one tuple per country to
    [coordinates], which starts empty. *)
Definition get_country_coordinates (geocode : string -> option Location)
  (country_list : list string) : list CountryCoordinate :=
  fold_left (fun coordinates country => coordinates ++ [coordinate_of geocode country])
            country_list [].

(** ** Meat production and agricultural land use *)

Definition selected_countries (dataset : dataset_choice) : list string :=
  match dataset with
  | Meat_Production =>
      ["United States"; "Argentina"; "Pakistan"; "Germany"; "India";
       "Brazil"; "China"; "Russia"; "Mexico"; "Spain"]%string
  | Agricultural_Land_Use =>
      ["United States"; "Argentina"; "India"; "Australia"; "Brazil";
       "Kazakhstan"; "China"; "Russia"; "Mexico"; "Saudi Arabia"]%string
  | _ => []
  end.

(** [filtered_data], lines 104 and 105: the rows of the year, of the
    countries of interest. *)
Definition filter_year_country {V : Type} (data : list (row V)) (year : Z)
  (countries : list string) : list (row V) :=
  filter (fun r => isin (Country r) countries)
         (filter (fun r => Z.eqb (Year r) year) data).

(** [filtered_data] as the map receives it: filtered, merged with the
    coordinates, the value column made numeric, rows without coordinates
    dropped. *)
Definition filtered_data (geocode : string -> option Location)
  (parse_number : string -> option number)
  (data : list (row cell)) (year : Z) (countries : list string)
  : list (map_row (option number)) :=
  let filtered := filter_year_country data year countries in
  let coordinates := get_country_coordinates geocode countries in
  let merged := merge filtered coordinates in
  let numeric := map (coerce_map_row parse_number) merged in
  dropna numeric.

(** [line_graph_data]: the rows of the countries of interest (from 1600 on
    for agricultural land), the value column made numeric, summed by
    (Year, Country).  The script builds it for these two datasets only. *)
Definition line_graph_data (parse_number : string -> option number)
  (dataset : dataset_choice) (data : list (row cell)) (countries : list string)
  : list (row (option number)) :=
  let rows :=
    match dataset with
    | Meat_Production => filter (fun r => isin (Country r) countries) data
    | Agricultural_Land_Use =>
        filter (fun r => Z.leb 1600 (Year r) && isin (Country r) countries) data
    | _ => []
    end in
  groupby_sum (map (coerce_row parse_number) rows).

(** What the chosen visualization is given. *)
Inductive chart_input : Type :=
| MapInput (layer_data : list (map_row (option number)))
| LineInput (lines_data : list (row (option number))).

(** The branch of the script for the two datasets with a map and a line
    chart: [filtered_data] is prepared first, then the radio button picks
    the chart. *)
Definition map_or_line (geocode : string -> option Location)
  (parse_number : string -> option number)
  (dataset : dataset_choice) (data : list (row cell)) (year : Z)
  (visualization : visualization_choice) : chart_input :=
  let countries := selected_countries dataset in
  let filtered := filtered_data geocode parse_number data year countries in
  match visualization with
  | Map => MapInput filtered
  | Line_Graph => LineInput (line_graph_data parse_number dataset data countries)
  end.

(** ** Meat consumption *)

Definition top_5 (data : list consumption_row) : option (list consumption_row) :=
  nlargest 10 data.

(** ** Obesity *)

Definition continents : list string :=
  ["World"; "Asia"; "Africa"; "Europe"; "North America"; "South America";
   "Oceania"; "Antarctica"; "Asia (excl. China and India)";
   "Europe (excl. Russia)"; "South America (excl. Brazil)"]%string.

Definition recent_year (data : list (row (option number))) : option Z := Year_max data.

(** [recent_data]: the rows of the most recent year, the names of
    [continents] excluded. *)
Definition recent_data (data : list (row (option number))) : list (row (option number)) :=
  match recent_year data with
  | None => []
  | Some y =>
      filter (fun r => negb (isin (Country r) continents))
             (filter (fun r => Z.eqb (Year r) y) data)
  end.

(** The rows behind [top_10_countries], in their order. *)
Definition top_10_rows (data : list (row (option number))) : list (row (option number)) :=
  head 10 (sort_values_desc Value (recent_data data)).

Definition top_10_countries (data : list (row (option number))) : list string :=
  map Country (top_10_rows data).

Definition filtered_df (data : list (row (option number))) : list (row (option number)) :=
  filter (fun r => isin (Country r) (top_10_countries data)) data.

(** The figure [px.line] is asked for: the frame it plots and the range of
    its x axis. *)
Record line_figure : Type := mkFigure {
  data_frame : list (row (option number));
  range_x : Z * option Z
}.

Definition obesity_figure (data : list (row (option number))) : line_figure :=
  mkFigure (filtered_df data) (1980%Z, recent_year data).

(** ** The year slider *)




(** ** The lines of the line chart *)

(** One call of [ax.plot]: the label, the x values and the y values. *)
Record plotted_line : Type := mkLine {
  label : string;
  xdata : list Z;
  ydata : list (option number)
}.

(** [line_graph_data[line_graph_data["Country"] == country]]. *)
Definition country_data (frame : list (row (option number))) (country : string)
  : list (row (option number)) :=
  filter (fun r => String.eqb (Country r) country) frame.

(** The line one turn of the loop plots. *)
Definition plot_country (frame : list (row (option number))) (country : string)
  : plotted_line :=
  let rows := country_data frame country in
  mkLine country (map Year rows) (map Value rows).

(** The loop over [selected_countries]: one call of [ax.plot] per country,
    in the order of the list. *)
Definition plot_lines (frame : list (row (option number))) (countries : list string)
  : list plotted_line :=
  fold_left (fun lines country => lines ++ [plot_country frame country])
            countries [].

(** The lines of the line chart of a dataset. *)
Definition line_chart (parse_number : string -> option number)
  (dataset : dataset_choice) (data : list (row cell)) : list plotted_line :=
  plot_lines (line_graph_data parse_number dataset data (selected_countries dataset))
             (selected_countries dataset).

(** [ax.set_xlim(1600, int(data["Year"].max()))], for agricultural land. *)
Definition agricultural_xlim (data : list (row cell)) : Z * option Z :=
  (1600%Z, Year_max data).

(** ** Predicates of the statements *)

(** The strict order of the group keys. *)
Definition key_lt (a b : key) : Prop := key_compare a b = Lt.

(** The row [groupby_sum] makes of a group. *)
Definition group_row (frame : list (row (option number))) (k : key) : row (option number) :=
  mkRow (fst k) (snd k)
        (sum_skipna
           (map Value (filter (fun r => key_eqb (key_of r) k) frame))).

(** [desc by_ a b]: in descending order of the column [by_], row [a] may
    stand before row [b]. *)
Definition desc {A : Type} (by_ : A -> option number) (a b : A) : Prop :=
  ge_value (by_ a) (by_ b) = true.

(** A string with no double quote. *)
Fixpoint quote_free (s : string) : Prop :=
  match s with
  | EmptyString => True
  | String c t => Ascii.eqb c quote = false /\ quote_free t
  end.

(** [fillna_zero r]: the row [r] with a missing value read as 0, which is
    what a sum over the row alone gives. *)
Definition fillna_zero (r : row (option number)) : row (option number) :=
  mkRow (Year r) (Country r)
        (Some (match Value r with Some x => x | None => number_zero end)).

(** The rows of the map input a dataset row gives: one when the geocoder
    finds its country, none otherwise. *)
Definition located_row (geocode : string -> option Location)
  (parse_number : string -> option number) (r : row cell)
  : list (map_row (option number)) :=
  match geocode (Country r) with
  | Some location =>
      [mkMapRow (coerce_row parse_number r)
                (Some (latitude location)) (Some (longitude location))]
  | None => []
  end.

(** The last character of a string. *)
Fixpoint last_char (s : string) : option ascii :=
  match s with
  | EmptyString => None
  | String c EmptyString => Some c
  | String _ t => last_char t
  end.

(** A string of ASCII characters: every byte is below 128. *)
Fixpoint ascii_only (s : string) : Prop :=
  match s with
  | EmptyString => True
  | String c t => (nat_of_ascii c < 128)%nat /\ ascii_only t
  end.

(** A string with no blank at either end. *)
Definition trimmed (s : string) : Prop :=
  (forall c t, s = String c t -> isspace c = false)
  /\ (forall c, last_char s = Some c -> isspace c = false).

(** [all_distinct ks]: no key of [ks] occurs twice, as a check. *)
Fixpoint all_distinct (ks : list key) : bool :=
  match ks with
  | [] => true
  | k :: rest => negb (existsb (key_eqb k) rest) && all_distinct rest
  end.

(** ** Sample inputs *)

(** A geocoder that finds every country but India. *)
Definition sample_geocode (country : string) : option Location :=
  if String.eqb country "India" then None
  else Some (mkLocation (20 # 1) (77 # 1)).

(** A parser that reads the string 12 and no other. *)
Definition sample_parse_number (s : string) : option number :=
  if String.eqb s "12" then Some (Finite (12 # 1)) else None.

Definition agriculture_sample : list (row cell) :=
  [ mkRow 1500%Z "China"%string (CNum (Finite (7 # 1)));
    mkRow 1600%Z "India"%string (CNum (Finite (5 # 1)));
    mkRow 1600%Z "China"%string (CStr "n/a");
    mkRow 1600%Z "France"%string (CNum (Finite (1 # 1)));
    mkRow 1700%Z "China"%string (CStr "12");
    mkRow 1700%Z "China"%string (CNum (Finite (1 # 2)));
    mkRow 1600%Z "Brazil"%string CNaN ].

Definition meat_csv_sample : list string :=
  ["Entity"; "Code"; "Year"; meat_raw_column]%string.

Definition agriculture_csv_sample : list string :=
  ["Entity"; "Code"; "Year"; "Land use: Agriculture"]%string.

Definition obesity_csv_sample : list string :=
  ["Entity"; "Code"; "Year"; obesity_raw_column]%string.

(** The header of a file whose names are quoted, the second after a blank. *)
Definition consumption_csv_sample : list string :=
  [ String quote ("Country" ++ String quote EmptyString);
    String " " (String quote ("Kilograms/capita" ++ String quote EmptyString)) ]%string.

(** A consumption dataset with two rows for one country. *)
Definition consumption_repeated : list consumption_row :=
  [ mkConsumption "Argentina" (CNum (Finite (47 # 1)));
    mkConsumption "Brazil" (CNum (Finite (35 # 1)));
    mkConsumption "Argentina" (CNum (Finite (50 # 1))) ].

Definition consumption_sample : list consumption_row :=
  [ mkConsumption "Brazil" (CNum (Finite (35 # 1)));
    mkConsumption "Chad" CNaN;
    mkConsumption "Argentina" (CNum (Finite (47 # 1))) ].

(** An obesity dataset: twelve countries and the world in 2016, one row of
    1975. *)
Definition obesity_sample : list (row (option number)) :=
  [ mkRow 1975%Z "Nauru"%string (Some (Finite (40 # 1)));
    mkRow 2016%Z "World"%string (Some (Finite (99 # 1)));
    mkRow 2016%Z "Nauru"%string (Some (Finite (61 # 1)));
    mkRow 2016%Z "Palau"%string (Some (Finite (55 # 1)));
    mkRow 2016%Z "Tonga"%string (Some (Finite (48 # 1)));
    mkRow 2016%Z "Samoa"%string (Some (Finite (47 # 1)));
    mkRow 2016%Z "Tuvalu"%string (Some (Finite (52 # 1)));
    mkRow 2016%Z "Kiribati"%string (Some (Finite (46 # 1)));
    mkRow 2016%Z "Kuwait"%string (Some (Finite (38 # 1)));
    mkRow 2016%Z "Qatar"%string (Some (Finite (35 # 1)));
    mkRow 2016%Z "Egypt"%string (Some (Finite (32 # 1)));
    mkRow 2016%Z "Jordan"%string (Some (Finite (36 # 1)));
    mkRow 2016%Z "Japan"%string (Some (Finite (4 # 1)));
    mkRow 2016%Z "Vietnam"%string (Some (Finite (2 # 1))) ].

(** A numeric frame with one row per (Year, Country) pair, out of order,
    one value missing. *)
Definition unique_keys_sample : list (row (option number)) :=
  [ mkRow 2016%Z "Nauru"%string (Some (Finite (61 # 1)));
    mkRow 1975%Z "Nauru"%string (Some (Finite (40 # 1)));
    mkRow 2016%Z "Japan"%string None ].

(** A dataset with the two infinities for one country and one year, as
    [read_csv] reads the cells inf and -inf. *)
Definition opposite_infinities : list (row cell) :=
  [ mkRow 2000%Z "India"%string (CNum PosInf);
    mkRow 2000%Z "India"%string (CNum NegInf) ].

(** A consumption dataset of twelve countries, one row each. *)
Definition consumption_twelve : list consumption_row :=
  [ mkConsumption "Brazil" (CNum (Finite (35 # 1)));
    mkConsumption "Chad" CNaN;
    mkConsumption "Argentina" (CNum (Finite (47 # 1)));
    mkConsumption "United States" (CNum (Finite (38 # 1)));
    mkConsumption "Israel" (CNum (Finite (34 # 1)));
    mkConsumption "Australia" (CNum (Finite (36 # 1)));
    mkConsumption "Chile" (CNum (Finite (30 # 1)));
    mkConsumption "India" (CNum (Finite (1 # 2)));
    mkConsumption "Kazakhstan" (CNum (Finite (28 # 1)));
    mkConsumption "Canada" (CNum (Finite (29 # 1)));
    mkConsumption "Uruguay" (CNum (Finite (27 # 1)));
    mkConsumption "Zimbabwe" (CNum (Finite (40 # 1))) ].

(** The obesity dataset above with a second row for Nauru in 2016. *)
Definition obesity_repeated : list (row (option number)) :=
  mkRow 2016%Z "Nauru"%string (Some (Finite (60 # 1))) :: obesity_sample.

(** * Part II: properties *)

(** ** Membership and the elementary frame operations *)

Lemma isin_In (x : string) (values : list string) :
  isin x values = true <-> In x values.
Proof.
  unfold isin. rewrite existsb_exists. split.
  - intros [y [Hy Heq]]. apply String.eqb_eq in Heq. now subst.
  - intros H. exists x. split; [assumption | apply String.eqb_refl].
Qed.

Lemma filter_year_country_In {V : Type} (data : list (row V)) (year : Z)
  (countries : list string) (r : row V) :
  In r (filter_year_country data year countries)
  <-> In r data /\ Year r = year /\ In (Country r) countries.
Proof.
  unfold filter_year_country. rewrite !filter_In, isin_In, Z.eqb_eq. tauto.
Qed.

Lemma merge_row_data_row {V : Type} (right : list CountryCoordinate)
  (l : row V) (m : map_row V) :
  In m (merge_row right l) -> data_row m = l.
Proof.
  unfold merge_row.
  destruct (filter _ right) as [| c cs]; simpl.
  - intros [<- | []]. reflexivity.
  - intros [<- | H]; [reflexivity |].
    apply in_map_iff in H. destruct H as [c' [<- _]]. reflexivity.
Qed.

Lemma merge_row_nonempty {V : Type} (right : list CountryCoordinate) (l : row V) :
  merge_row right l <> [].
Proof.
  unfold merge_row. destruct (filter _ right); simpl; discriminate.
Qed.

Lemma In_merge {V : Type} (left : list (row V)) (right : list CountryCoordinate)
  (m : map_row V) :
  In m (merge left right) -> In (data_row m) left.
Proof.
  unfold merge. rewrite in_flat_map. intros [l [Hl Hm]].
  apply merge_row_data_row in Hm. now subst.
Qed.

Lemma dropna_In {V : Type} (frame : list (map_row V)) (m : map_row V) :
  In m (dropna frame)
  <-> In m frame /\ Latitude m <> None /\ Longitude m <> None.
Proof.
  unfold dropna. rewrite filter_In, andb_true_iff.
  destruct (Latitude m), (Longitude m); simpl; intuition congruence.
Qed.

(** Every row of the map input comes from a row of the year and of the
    countries of interest, with its value made numeric. *)
Lemma filtered_data_In (geocode : string -> option Location)
  (parse_number : string -> option number) (data : list (row cell)) (year : Z)
  (countries : list string) (m : map_row (option number)) :
  In m (filtered_data geocode parse_number data year countries) ->
  exists r, In r (filter_year_country data year countries)
            /\ data_row m = coerce_row parse_number r
            /\ Latitude m <> None /\ Longitude m <> None.
Proof.
  unfold filtered_data. rewrite dropna_In. intros [Hm [Hlat Hlon]].
  apply in_map_iff in Hm. destruct Hm as [m0 [<- Hm0]].
  exists (data_row m0). split; [now apply In_merge in Hm0 |].
  now repeat split.
Qed.

Lemma NoDup_map_injective {A B : Type} (f : A -> B) (l : list A) :
  (forall a b, In a l -> In b l -> f a = f b -> a = b) ->
  NoDup l -> NoDup (map f l).
Proof.
  intros Hinj. induction 1 as [| a l Hnotin Hnd IH]; simpl; constructor.
  - intros Hin. apply in_map_iff in Hin. destruct Hin as [b [Heq Hb]].
    apply Hnotin. rewrite (Hinj a b); auto; [now left | now right].
  - apply IH. intros x y Hx Hy. apply Hinj; now right.
Qed.

(** Filtering a frame keeps its keys distinct. *)
Lemma filter_keeps_distinct {R K : Type} (key_ : R -> K) (keep : R -> bool)
  (rows : list R) (Hdistinct : NoDup (map key_ rows)) :
  NoDup (map key_ (filter keep rows)).
Proof.
  induction rows as [| r rows IH]; simpl; [constructor |].
  simpl in Hdistinct. apply NoDup_cons_iff in Hdistinct.
  destruct Hdistinct as [Hnotin Hrest].
  destruct (keep r); simpl; [| now apply IH].
  apply NoDup_cons_iff. split; [| now apply IH].
  intros Hin. apply Hnotin. apply in_map_iff in Hin.
  destruct Hin as [r' [Hkey Hkept]]. apply filter_In in Hkept.
  apply in_map_iff. exists r'. tauto.
Qed.

(** ** The coordinate resolver *)

Lemma coordinates_loop (geocode : string -> option Location)
  (country_list : list string) (acc : list CountryCoordinate) :
  fold_left (fun coordinates country => coordinates ++ [coordinate_of geocode country])
            country_list acc
  = acc ++ map (coordinate_of geocode) country_list.
Proof.
  revert acc. induction country_list as [| c cs IH]; intros acc; simpl.
  - now rewrite app_nil_r.
  - rewrite IH, <- app_assoc. reflexivity.
Qed.

Lemma get_country_coordinates_map (geocode : string -> option Location)
  (country_list : list string) :
  get_country_coordinates geocode country_list
  = map (coordinate_of geocode) country_list.
Proof. unfold get_country_coordinates. now rewrite coordinates_loop. Qed.

Lemma coordinate_of_Country (geocode : string -> option Location) (country : string) :
  coord_Country (coordinate_of geocode country) = country.
Proof. unfold coordinate_of. now destruct (geocode country). Qed.

Lemma coordinate_of_missing (geocode : string -> option Location) (country : string) :
  geocode country = None ->
  coord_Latitude (coordinate_of geocode country) = None
  /\ coord_Longitude (coordinate_of geocode country) = None.
Proof. intros H. unfold coordinate_of. rewrite H. now split. Qed.

Lemma coordinate_of_both (geocode : string -> option Location) (country : string) :
  coord_Latitude (coordinate_of geocode country) = None
  <-> coord_Longitude (coordinate_of geocode country) = None.
Proof.
  unfold coordinate_of. destruct (geocode country); simpl; split; congruence.
Qed.

(** C2.  [get_country_coordinates] returns one row per name of its input
    list, in the order of the list: the rows and the names correspond
    position by position, each row carries its name, and the row of a name
    the geocoder does not find has both coordinates missing.  In no row is
    exactly one of the two coordinates missing. *)
Theorem get_country_coordinates_rows (geocode : string -> option Location)
  (country_list : list string) :
  let coordinates := get_country_coordinates geocode country_list in
  List.length coordinates = List.length country_list
  /\ map coord_Country coordinates = country_list
  /\ Forall2 (fun country c =>
                coord_Country c = country
                /\ (geocode country = None ->
                    coord_Latitude c = None /\ coord_Longitude c = None))
             country_list coordinates
  /\ Forall (fun c => coord_Latitude c = None <-> coord_Longitude c = None)
            coordinates.
Proof.
  cbv zeta. rewrite get_country_coordinates_map.
  split; [apply length_map | split; [| split]].
  - rewrite map_map. rewrite <- (map_id country_list) at 2.
    apply map_ext. intros c. apply coordinate_of_Country.
  - induction country_list as [| c cs IH]; simpl; constructor; auto.
    split; [apply coordinate_of_Country | apply coordinate_of_missing].
  - apply Forall_forall. intros c Hc. apply in_map_iff in Hc.
    destruct Hc as [country [<- _]]. apply coordinate_of_both.
Qed.

(** ** Filtering by year and country *)

(** C1.  Whatever the dataset, the year and the list of countries of
    interest: every row kept by the two filters has the selected year and a
    country of the list, and so has every row of [filtered_data] as the map
    receives it (after the merge, the coercion and the drop). *)
Theorem filtered_data_year_country (geocode : string -> option Location)
  (parse_number : string -> option number) (data : list (row cell)) (year : Z)
  (countries : list string) :
  Forall (fun r => Year r = year /\ In (Country r) countries)
         (filter_year_country data year countries)
  /\ Forall (fun m => Year (data_row m) = year
                     /\ In (Country (data_row m)) countries)
            (filtered_data geocode parse_number data year countries).
Proof.
  split; apply Forall_forall.
  - intros r Hr. apply filter_year_country_In in Hr. tauto.
  - intros m Hm. apply filtered_data_In in Hm.
    destruct Hm as [r [Hr [Heq _]]].
    apply filter_year_country_In in Hr. rewrite Heq. simpl. tauto.
Qed.

(** ** Numeric coercion *)

(** C5.  The coercion of the value column keeps every row and changes
    nothing but the value: a string with no numeric reading becomes the
    missing value (which is not a number, zero included), a number stays the
    number it is, and a string with a numeric reading becomes that number.
    [to_numeric] is a total function: there is no error case. *)
Theorem to_numeric_coerce (parse_number : string -> option number)
  (frame : list (map_row cell)) :
  Forall2 (fun before after =>
             Year (data_row after) = Year (data_row before)
             /\ Country (data_row after) = Country (data_row before)
             /\ Latitude after = Latitude before
             /\ Longitude after = Longitude before
             /\ (forall s, Value (data_row before) = CStr s ->
                           parse_number s = None ->
                           Value (data_row after) = None)
             /\ (forall q, Value (data_row before) = CNum q ->
                           Value (data_row after) = Some q)
             /\ (forall s q, Value (data_row before) = CStr s ->
                             parse_number s = Some q ->
                             Value (data_row after) = Some q))
          frame (map (coerce_map_row parse_number) frame).
Proof.
  induction frame as [| m frame IH]; simpl; constructor; [| exact IH].
  destruct m as [[y c v] lat lon]; simpl.
  repeat split; try reflexivity.
  - intros s -> H. simpl. exact H.
  - intros q ->. reflexivity.
  - intros s q -> H. simpl. exact H.
Qed.

(** ** The order of the group keys *)

Lemma ascii_compare_refl (c : ascii) : Ascii.compare c c = Eq.
Proof. unfold Ascii.compare. apply N.compare_refl. Qed.

Lemma string_compare_refl (s : string) : String.compare s s = Eq.
Proof.
  induction s as [| c s IH]; simpl; [reflexivity |].
  now rewrite ascii_compare_refl.
Qed.

Lemma string_compare_lt_trans (a b c : string) :
  String.compare a b = Lt -> String.compare b c = Lt -> String.compare a c = Lt.
Proof.
  revert b c. induction a as [| x a IH]; intros [| y b] [| z c]; simpl;
    try discriminate; try reflexivity.
  destruct (Ascii.compare x y) eqn:Hxy; try discriminate;
    destruct (Ascii.compare y z) eqn:Hyz; try discriminate; intros Hab Hbc.
  - apply Ascii.compare_eq_iff in Hxy, Hyz. subst.
    rewrite ascii_compare_refl. eauto.
  - apply Ascii.compare_eq_iff in Hxy. subst. now rewrite Hyz.
  - apply Ascii.compare_eq_iff in Hyz. subst. now rewrite Hxy.
  - unfold Ascii.compare in *. rewrite N.compare_lt_iff in *.
    assert (H : (N_of_ascii x < N_of_ascii z)%N) by lia.
    apply N.compare_lt_iff in H. now rewrite H.
Qed.

Lemma key_compare_eq (a b : key) : key_compare a b = Eq -> a = b.
Proof.
  destruct a as [ya ca], b as [yb cb]. unfold key_compare. simpl.
  destruct (Z.compare ya yb) eqn:Hy; try discriminate.
  intros Hc. apply Z.compare_eq in Hy. apply String.compare_eq_iff in Hc.
  now subst.
Qed.

Lemma key_compare_refl (a : key) : key_compare a a = Eq.
Proof.
  unfold key_compare. rewrite Z.compare_refl. apply string_compare_refl.
Qed.

Lemma key_compare_gt_lt (a b : key) : key_compare a b = Gt -> key_lt b a.
Proof.
  unfold key_lt, key_compare.
  rewrite (Z.compare_antisym (fst a) (fst b)).
  rewrite (String.compare_antisym (snd b) (snd a)).
  destruct (Z.compare (fst a) (fst b)); simpl; try discriminate; try reflexivity.
  destruct (String.compare (snd a) (snd b)); simpl; try discriminate; reflexivity.
Qed.

Lemma key_lt_trans (a b c : key) : key_lt a b -> key_lt b c -> key_lt a c.
Proof.
  unfold key_lt, key_compare.
  destruct (Z.compare (fst a) (fst b)) eqn:Hab; try discriminate;
    destruct (Z.compare (fst b) (fst c)) eqn:Hbc; try discriminate; intros H1 H2.
  - apply Z.compare_eq in Hab, Hbc.
    assert (H : Z.compare (fst a) (fst c) = Eq) by (apply Z.compare_eq_iff; lia).
    rewrite H. eapply string_compare_lt_trans; eassumption.
  - apply Z.compare_eq in Hab. rewrite Hab. now rewrite Hbc.
  - apply Z.compare_eq in Hbc. rewrite <- Hbc. now rewrite Hab.
  - rewrite Z.compare_lt_iff in *.
    assert (H : (fst a < fst c)%Z) by lia.
    apply Z.compare_lt_iff in H. now rewrite H.
Qed.

Lemma key_lt_irrefl (a : key) : ~ key_lt a a.
Proof. unfold key_lt. rewrite key_compare_refl. discriminate. Qed.

Lemma key_eqb_eq (a b : key) : key_eqb a b = true <-> a = b.
Proof.
  destruct a as [ya ca], b as [yb cb]. unfold key_eqb. simpl.
  rewrite andb_true_iff, Z.eqb_eq, String.eqb_eq.
  split; [intros [-> ->]; reflexivity | intros H; inversion H; auto].
Qed.

Lemma key_eqb_refl (a : key) : key_eqb a a = true.
Proof. now apply key_eqb_eq. Qed.

(** A list of keys checked to hold no key twice. *)
Lemma all_distinct_NoDup (ks : list key) : all_distinct ks = true -> NoDup ks.
Proof.
  induction ks as [| k ks IH]; simpl; [constructor |].
  intros H. apply andb_true_iff in H. destruct H as [Hk Hks].
  constructor; [| now apply IH].
  intros Hin. apply negb_true_iff in Hk.
  assert (Ht : existsb (key_eqb k) ks = true).
  { apply existsb_exists. exists k. split; [exact Hin | apply key_eqb_refl]. }
  congruence.
Qed.

(** ** Group keys *)

Lemma insert_key_In (k x : key) (ks : list key) :
  In x (insert_key k ks) <-> x = k \/ In x ks.
Proof.
  induction ks as [| k' ks IH]; simpl.
  - intuition.
  - destruct (key_compare k k') eqn:Hc; simpl.
    + apply key_compare_eq in Hc. subst. intuition.
    + intuition.
    + rewrite IH. intuition.
Qed.

Lemma group_keys_In (x : key) (ks : list key) :
  In x (group_keys ks) <-> In x ks.
Proof.
  induction ks as [| k ks IH]; simpl; [tauto |].
  rewrite insert_key_In, IH. intuition.
Qed.

Lemma insert_key_sorted (k : key) (ks : list key) :
  StronglySorted key_lt ks -> StronglySorted key_lt (insert_key k ks).
Proof.
  induction 1 as [| k' ks Hs IH Hall]; simpl.
  - repeat constructor.
  - destruct (key_compare k k') eqn:Hc.
    + now constructor.
    + constructor; [now constructor |].
      constructor; [exact Hc |].
      eapply Forall_impl; [| exact Hall].
      intros x Hx. eapply key_lt_trans; eassumption.
    + constructor; [exact IH |].
      apply Forall_forall. intros x Hx. apply insert_key_In in Hx.
      destruct Hx as [-> | Hx].
      * now apply key_compare_gt_lt.
      * rewrite Forall_forall in Hall. now apply Hall.
Qed.

Lemma group_keys_sorted (ks : list key) : StronglySorted key_lt (group_keys ks).
Proof.
  induction ks as [| k ks IH]; simpl; [constructor | now apply insert_key_sorted].
Qed.

(** A list of keys already in strictly increasing order is its own list of
    group keys. *)
Lemma group_keys_fixed (ks : list key) :
  StronglySorted key_lt ks -> group_keys ks = ks.
Proof.
  induction 1 as [| k ks Hs IH Hall]; simpl; [reflexivity |].
  rewrite IH. destruct ks as [| k' ks']; simpl; [reflexivity |].
  inversion Hall as [| ? ? Hk _]; subst.
  unfold key_lt in Hk. now rewrite Hk.
Qed.

Lemma sorted_keys_NoDup (ks : list key) : StronglySorted key_lt ks -> NoDup ks.
Proof.
  induction 1 as [| k ks Hs IH Hall]; constructor; [| exact IH].
  intros Hin. rewrite Forall_forall in Hall.
  exact (key_lt_irrefl k (Hall k Hin)).
Qed.

(** ** Sums by group *)

Lemma Qplus_zero_l (q : Q) : Qplus (0 # 1) q = q.
Proof.
  destruct q as [n d]. unfold Qplus. simpl. now rewrite Z.mul_1_r.
Qed.

Lemma number_add_zero_l (x : number) : number_add number_zero x = Some x.
Proof.
  destruct x as [q | |]; simpl; [| reflexivity | reflexivity].
  now rewrite Qplus_zero_l.
Qed.

(** The sum of a group of one row: its value, or 0 when it is missing. *)
Lemma sum_skipna_single (v : option number) :
  sum_skipna [v]
  = Some (match v with Some x => x | None => number_zero end).
Proof.
  unfold sum_skipna. destruct v as [x |]; simpl; [| reflexivity].
  apply number_add_zero_l.
Qed.

Lemma groupby_sum_unfold (frame : list (row (option number))) :
  groupby_sum frame = map (group_row frame) (group_keys (map key_of frame)).
Proof. reflexivity. Qed.

Lemma key_of_group_row (frame : list (row (option number))) (k : key) :
  key_of (group_row frame k) = k.
Proof. now destruct k. Qed.

Lemma groupby_sum_keys (frame : list (row (option number))) :
  map key_of (groupby_sum frame) = group_keys (map key_of frame).
Proof.
  rewrite groupby_sum_unfold, map_map.
  rewrite <- (map_id (group_keys _)) at 2.
  apply map_ext. intros k. apply key_of_group_row.
Qed.

(** The groups of the output are the (Year, Country) pairs of the input. *)
Lemma groupby_sum_In_key (frame : list (row (option number))) (r : row (option number)) :
  In r (groupby_sum frame) -> exists r0, In r0 frame /\ key_of r0 = key_of r.
Proof.
  intros Hr. apply (in_map key_of) in Hr.
  rewrite groupby_sum_keys, group_keys_In in Hr.
  apply in_map_iff in Hr. destruct Hr as [r0 [Hk Hr0]]. now exists r0.
Qed.

Lemma groupby_sum_has_key (frame : list (row (option number))) (r0 : row (option number)) :
  In r0 frame -> exists r, In r (groupby_sum frame) /\ key_of r = key_of r0.
Proof.
  intros Hr0. apply (in_map key_of) in Hr0.
  rewrite <- group_keys_In, <- groupby_sum_keys in Hr0.
  apply in_map_iff in Hr0. destruct Hr0 as [r [Hk Hr]]. now exists r.
Qed.

(** In a frame with one row per key, the group of a key is its row. *)
Lemma filter_key_unique (f : key -> row (option number)) (ks : list key) (k : key) :
  (forall k', key_of (f k') = k') -> NoDup ks -> In k ks ->
  filter (fun r => key_eqb (key_of r) k) (map f ks) = [f k].
Proof.
  intros Hf. induction 1 as [| k' ks Hnotin Hnd IH]; simpl; [intros [] |].
  rewrite Hf. intros [-> | Hin].
  - rewrite key_eqb_refl. f_equal.
    clear IH Hnd. induction ks as [| k1 ks IHks]; simpl; [reflexivity |].
    rewrite Hf. destruct (key_eqb k1 k) eqn:He.
    + apply key_eqb_eq in He. subst. exfalso. apply Hnotin. now left.
    + apply IHks. intros H. apply Hnotin. now right.
  - destruct (key_eqb k' k) eqn:He.
    + apply key_eqb_eq in He. subst. contradiction.
    + now apply IH.
Qed.

Lemma fillna_zero_fixed (r : row (option number)) :
  fillna_zero r = r <-> Value r <> None.
Proof.
  destruct r as [y c [x |]]; unfold fillna_zero; simpl; split;
    try reflexivity; try discriminate; try congruence.
Qed.

Lemma fillna_zero_idempotent (r : row (option number)) :
  fillna_zero (fillna_zero r) = fillna_zero r.
Proof. apply fillna_zero_fixed. discriminate. Qed.

Lemma map_fixed {A : Type} (f : A -> A) (l : list A) :
  map f l = l <-> Forall (fun a => f a = a) l.
Proof.
  induction l as [| a l IH]; simpl; split; intros H.
  - constructor.
  - reflexivity.
  - injection H as Ha Hl. constructor; [exact Ha | now apply IH].
  - inversion H as [| ? ? Ha Hl]; subst. rewrite Ha. f_equal. now apply IH.
Qed.

(** The sums of a frame of sums: the same rows, a missing sum read as 0. *)
Lemma groupby_sum_again (frame : list (row (option number))) :
  groupby_sum (groupby_sum frame) = map fillna_zero (groupby_sum frame).
Proof.
  set (ks := group_keys (map key_of frame)).
  assert (Hsorted : StronglySorted key_lt ks) by apply group_keys_sorted.
  rewrite (groupby_sum_unfold (groupby_sum frame)).
  rewrite groupby_sum_keys. fold ks.
  rewrite (group_keys_fixed ks Hsorted).
  rewrite (groupby_sum_unfold frame). fold ks.
  rewrite map_map. apply map_ext_in. intros k Hk.
  unfold group_row at 1.
  rewrite (filter_key_unique (group_row frame) ks k
             (key_of_group_row frame) (sorted_keys_NoDup ks Hsorted) Hk).
  simpl map. rewrite sum_skipna_single.
  unfold fillna_zero. now destruct k.
Qed.

(** C6, as the code has it.  Grouping by (Year, Country) and summing,
    applied to its own output, returns that output with every missing sum
    (NaN) replaced by 0.  So it returns its own output unchanged exactly
    when no sum of that output is missing, and from the second application
    on it changes nothing. *)
Theorem groupby_sum_twice (frame : list (row (option number))) :
  groupby_sum (groupby_sum frame) = map fillna_zero (groupby_sum frame)
  /\ (groupby_sum (groupby_sum frame) = groupby_sum frame
      <-> Forall (fun r => Value r <> None) (groupby_sum frame))
  /\ groupby_sum (groupby_sum (groupby_sum frame))
     = groupby_sum (groupby_sum frame).
Proof.
  split; [apply groupby_sum_again |]. split.
  - rewrite groupby_sum_again, map_fixed.
    split; apply Forall_impl; intros r; apply fillna_zero_fixed.
  - rewrite (groupby_sum_again (groupby_sum frame)), groupby_sum_again.
    rewrite map_map. apply map_ext. intros r. apply fillna_zero_idempotent.
Qed.

(** ** The line-chart input *)

(** Every row of the line-chart input carries the (Year, Country) pair of a
    row of the dataset that passed the line chart's filter. *)
Lemma line_graph_data_In (parse_number : string -> option number)
  (dataset : dataset_choice) (data : list (row cell)) (countries : list string)
  (r : row (option number)) :
  In r (line_graph_data parse_number dataset data countries) ->
  exists r0, In r0 data /\ Year r0 = Year r /\ Country r0 = Country r
             /\ In (Country r0) countries
             /\ (dataset = Agricultural_Land_Use -> (1600 <= Year r0)%Z).
Proof.
  unfold line_graph_data. intros Hr.
  apply groupby_sum_In_key in Hr. destruct Hr as [r1 [Hr1 Hk]].
  apply in_map_iff in Hr1. destruct Hr1 as [r0 [<- Hr0]].
  unfold key_of in Hk. simpl in Hk. inversion Hk as [[Hy Hc]].
  exists r0. destruct dataset; simpl in Hr0; try contradiction;
    apply filter_In in Hr0; destruct Hr0 as [Hin Hf].
  - apply isin_In in Hf. repeat split; auto. discriminate.
  - apply andb_true_iff in Hf. destruct Hf as [Hy0 Hc0].
    apply isin_In in Hc0. apply Z.leb_le in Hy0. repeat split; auto.
Qed.

(** Every row of the dataset that passes the line chart's filter has its
    (Year, Country) pair in the line-chart input. *)
Lemma line_graph_data_complete (parse_number : string -> option number)
  (dataset : dataset_choice) (data : list (row cell)) (countries : list string)
  (r0 : row cell) :
  In r0 data -> In (Country r0) countries ->
  dataset = Meat_Production
  \/ (dataset = Agricultural_Land_Use /\ (1600 <= Year r0)%Z) ->
  exists r, In r (line_graph_data parse_number dataset data countries)
            /\ Year r = Year r0 /\ Country r = Country r0.
Proof.
  intros Hin Hc Hd. unfold line_graph_data.
  destruct (groupby_sum_has_key
              (map (coerce_row parse_number)
                   (match dataset with
                    | Meat_Production =>
                        filter (fun r => isin (Country r) countries) data
                    | Agricultural_Land_Use =>
                        filter (fun r => Z.leb 1600 (Year r)
                                         && isin (Country r) countries) data
                    | _ => []
                    end))
              (coerce_row parse_number r0)) as [r [Hr Hk]].
  - apply in_map. apply isin_In in Hc.
    destruct Hd as [-> | [-> Hy]]; apply filter_In; split; auto.
    apply Z.leb_le in Hy. now rewrite Hy, Hc.
  - exists r. split; [exact Hr |].
    unfold key_of in Hk. simpl in Hk. now inversion Hk.
Qed.

(** C9.  Agricultural land use with the year 1600: the map input holds no
    row of a year before 1600 (its rows are of the year 1600), and the
    line-chart input holds no row of a year before 1600, whatever years the
    dataset has and whatever year is selected. *)
Theorem agricultural_land_use_from_1600 (geocode : string -> option Location)
  (parse_number : string -> option number) (data : list (row cell)) :
  (forall layer_data,
      map_or_line geocode parse_number Agricultural_Land_Use data 1600 Map
      = MapInput layer_data ->
      Forall (fun m => (1600 <= Year (data_row m))%Z) layer_data)
  /\ (forall year lines_data,
         map_or_line geocode parse_number Agricultural_Land_Use data year Line_Graph
         = LineInput lines_data ->
         Forall (fun r => (1600 <= Year r)%Z) lines_data)
  /\ map_or_line geocode parse_number Agricultural_Land_Use data 1600 Map
     = MapInput (filtered_data geocode parse_number data 1600
                               (selected_countries Agricultural_Land_Use))
  /\ (forall year,
         map_or_line geocode parse_number Agricultural_Land_Use data year Line_Graph
         = LineInput (line_graph_data parse_number Agricultural_Land_Use data
                                      (selected_countries Agricultural_Land_Use))).
Proof.
  split; [| split; [| split; [reflexivity | reflexivity]]].
  - intros layer_data H. unfold map_or_line in H. inversion H as [Hl]. clear H Hl.
    apply Forall_forall. intros m Hm.
    apply filtered_data_In in Hm. destruct Hm as [r [Hr [Heq _]]].
    apply filter_year_country_In in Hr. rewrite Heq. simpl.
    destruct Hr as [_ [-> _]]. lia.
  - intros year lines_data H. unfold map_or_line in H. inversion H as [Hl]. clear H Hl.
    apply Forall_forall. intros r Hr.
    apply line_graph_data_In in Hr.
    destruct Hr as [r0 [_ [Hy [_ [_ Hfloor]]]]].
    rewrite <- Hy. now apply Hfloor.
Qed.

(** C10.  A failed coordinate lookup reaches the map input only.  The
    line-chart input is the same for any two geocoders: it is
    [line_graph_data] of the whole dataset, and it has the (Year, Country)
    pair of every row of the dataset that passes the line chart's own filter,
    found by the geocoder or not.  The rows without coordinates are dropped
    from the map input alone: each of its rows has both coordinates. *)
Theorem line_graph_independent_of_geocoding
  (geocode1 geocode2 : string -> option Location)
  (parse_number : string -> option number) (dataset : dataset_choice)
  (data : list (row cell)) (year : Z) :
  map_or_line geocode1 parse_number dataset data year Line_Graph
  = map_or_line geocode2 parse_number dataset data year Line_Graph
  /\ map_or_line geocode1 parse_number dataset data year Line_Graph
     = LineInput (line_graph_data parse_number dataset data
                                  (selected_countries dataset))
  /\ (forall r0,
         In r0 data -> In (Country r0) (selected_countries dataset) ->
         dataset = Meat_Production
         \/ (dataset = Agricultural_Land_Use /\ (1600 <= Year r0)%Z) ->
         exists r,
           In r (line_graph_data parse_number dataset data
                                 (selected_countries dataset))
           /\ Year r = Year r0 /\ Country r = Country r0)
  /\ map_or_line geocode1 parse_number dataset data year Map
     = MapInput (dropna (map (coerce_map_row parse_number)
                             (merge (filter_year_country data year
                                       (selected_countries dataset))
                                    (get_country_coordinates geocode1
                                       (selected_countries dataset)))))
  /\ (forall m,
         In m (filtered_data geocode1 parse_number data year
                             (selected_countries dataset)) ->
         Latitude m <> None /\ Longitude m <> None
         /\ geocode1 (Country (data_row m)) <> None).
Proof.
  split; [reflexivity |]. split; [reflexivity |].
  split; [intros r0; apply line_graph_data_complete |].
  split; [reflexivity |].
  intros m Hm. unfold filtered_data in Hm. apply dropna_In in Hm.
  destruct Hm as [Hm [Hlat Hlon]]. repeat split; auto.
  apply in_map_iff in Hm. destruct Hm as [m0 [<- Hm0]]. simpl in *.
  unfold merge in Hm0. apply in_flat_map in Hm0. destruct Hm0 as [l [_ Hm0]].
  unfold merge_row in Hm0.
  destruct (filter _ (get_country_coordinates geocode1 _)) as [| c cs] eqn:Hf.
  - destruct Hm0 as [<- | []]. simpl in Hlat. congruence.
  - assert (Hin : In m0 (map (fun c0 => mkMapRow l (coord_Latitude c0)
                                                 (coord_Longitude c0)) (c :: cs)))
      by exact Hm0.
    apply in_map_iff in Hin. destruct Hin as [c0 [<- Hc0]].
    rewrite <- Hf in Hc0. simpl in Hlat. apply filter_In in Hc0. destruct Hc0 as [Hc0 Heq].
    apply String.eqb_eq in Heq.
    rewrite get_country_coordinates_map in Hc0. apply in_map_iff in Hc0.
    destruct Hc0 as [country [<- _]].
    rewrite coordinate_of_Country in Heq. subst country.
    intros Hnone. apply coordinate_of_missing in Hnone.
    destruct Hnone as [Hn _]. simpl in Hn. congruence.
Qed.

(** ** Renaming columns *)

(** A renamed name is a value of the mapper; a name that stays is no key of
    it. *)
Lemma dict_get_cases (mapper : list (string * string)) (name : string) :
  In (dict_get mapper name) (map snd mapper)
  \/ (dict_get mapper name = name /\ ~ In name (map fst mapper)).
Proof.
  induction mapper as [| [k v] rest IH]; simpl.
  - right. split; [reflexivity | tauto].
  - destruct (String.eqb_spec name k) as [-> | Hne].
    + left. now left.
    + destruct IH as [IH | [IH1 IH2]].
      * left. now right.
      * right. split; [exact IH1 |]. intros [H | H]; [now subst | contradiction].
Qed.

(** A key of the mapper that is not also one of its values is no column name
    after [rename]. *)
Lemma rename_removes_key (mapper : list (string * string)) (columns : list string)
  (k : string) :
  In k (map fst mapper) -> ~ In k (map snd mapper) ->
  ~ In k (rename mapper columns).
Proof.
  intros Hkey Hval Hin. unfold rename in Hin. apply in_map_iff in Hin.
  destruct Hin as [name [Hget _]].
  destruct (dict_get_cases mapper name) as [H | [H1 H2]].
  - rewrite Hget in H. contradiction.
  - rewrite H1 in Hget. subst. contradiction.
Qed.

Lemma rename_adds_value (mapper : list (string * string)) (columns : list string)
  (k v : string) :
  In k columns -> dict_get mapper k = v -> In v (rename mapper columns).
Proof. intros Hin <-. unfold rename. now apply in_map. Qed.

(** A name that is neither key nor value of the mapper is a column after
    [rename] exactly when it was one before. *)
Lemma rename_keeps_other (mapper : list (string * string)) (columns : list string)
  (name : string) :
  ~ In name (map fst mapper) -> ~ In name (map snd mapper) ->
  In name (rename mapper columns) -> In name columns.
Proof.
  intros Hkey Hval Hin. unfold rename in Hin. apply in_map_iff in Hin.
  destruct Hin as [c [Hget Hc]].
  destruct (dict_get_cases mapper c) as [H | [H1 _]].
  - rewrite Hget in H. contradiction.
  - rewrite H1 in Hget. now subst.
Qed.

(** ** Stripping quotes and blanks *)

Lemma str_replace_quote_free (s : string) : quote_free (str_replace_quote s).
Proof.
  induction s as [| c t IH]; simpl; [exact I |].
  destruct (Ascii.eqb c quote) eqn:Hc; simpl; auto.
Qed.

Lemma str_replace_quote_fixed (s : string) :
  quote_free s -> str_replace_quote s = s.
Proof.
  induction s as [| c t IH]; simpl; [reflexivity |].
  intros [Hc Ht]. rewrite Hc. now rewrite IH.
Qed.

Lemma lstrip_quote_free (s : string) : quote_free s -> quote_free (lstrip s).
Proof.
  induction s as [| c t IH]; simpl; [auto |].
  intros [Hc Ht]. destruct (isspace c); simpl; auto.
Qed.

Lemma rstrip_quote_free (s : string) : quote_free s -> quote_free (rstrip s).
Proof.
  induction s as [| c t IH]; simpl; [auto |].
  intros [Hc Ht]. specialize (IH Ht).
  destruct (rstrip t) as [| d u]; [destruct (isspace c) |]; simpl in *; auto.
Qed.

Lemma rstrip_idempotent (s : string) : rstrip (rstrip s) = rstrip s.
Proof.
  induction s as [| c t IH]; simpl; [reflexivity |].
  destruct (rstrip t) as [| d u] eqn:Ht.
  - destruct (isspace c) eqn:Hc; simpl; [reflexivity | now rewrite Hc].
  - change (rstrip (String c (String d u))) with
      (match rstrip (String d u) with
       | EmptyString => if isspace c then EmptyString else String c EmptyString
       | String d' u' => String c (String d' u')
       end).
    now rewrite IH.
Qed.

Lemma lstrip_idempotent (s : string) : lstrip (lstrip s) = lstrip s.
Proof.
  induction s as [| c t IH]; simpl; [reflexivity |].
  destruct (isspace c) eqn:Hc; [exact IH | simpl; now rewrite Hc].
Qed.

(** [lstrip] leaves the end of a string as it is. *)
Lemma lstrip_keeps_rstrip (s : string) : rstrip s = s -> rstrip (lstrip s) = lstrip s.
Proof.
  induction s as [| c t IH]; simpl; [reflexivity |].
  intros H. destruct (isspace c) eqn:Hc.
  - apply IH. destruct (rstrip t) as [| d u] eqn:Ht.
    + discriminate.
    + now inversion H.
  - simpl. rewrite Hc. exact H.
Qed.

Lemma strip_idempotent (s : string) : strip (strip s) = strip s.
Proof.
  unfold strip.
  rewrite (lstrip_keeps_rstrip (rstrip s) (rstrip_idempotent s)).
  apply lstrip_idempotent.
Qed.

(** The header clean-up of the consumption loader changes no name it has
    produced. *)
Lemma clean_header_idempotent (name : string) :
  strip (str_replace_quote (strip (str_replace_quote name)))
  = strip (str_replace_quote name).
Proof.
  rewrite (str_replace_quote_fixed (strip (str_replace_quote name))).
  - apply strip_idempotent.
  - unfold strip. apply lstrip_quote_free, rstrip_quote_free, str_replace_quote_free.
Qed.

(** ** The loaders *)

Local Open Scope string_scope.

(** [not_among] proves that a name is none of the names of a list, all of
    them given: it compares the name with each. *)
Ltac not_among :=
  simpl;
  let H := fresh "H" in
  intros H;
  repeat (destruct H as [H | H];
          [revert H; apply String.eqb_neq; reflexivity |]);
  exact H.

(** C7.  The four loaders, on the header of their CSV file.  After a loader
    that renames, no column has a raw name the loader renames ([Entity], the
    long name of the value column); after the consumption loader, no column
    has a name the clean-up changed.  When the header has the raw names the
    loader renames, the result has the canonical names: [Country] and
    [Meat_Production], [Country] and [Agricultural_Area], [Country] and
    [Obesity]; the consumption loader's result has [Country] when a raw name
    cleans up to it. *)
Theorem loaders_canonical_columns
  (meat_csv agriculture_csv consumption_csv obesity_csv : list string) :
  (~ In "Entity" (load_meat_data meat_csv)
   /\ ~ In meat_raw_column (load_meat_data meat_csv))
  /\ (~ In "Entity" (load_agriculture_data agriculture_csv)
      /\ ~ In "Land use: Agriculture" (load_agriculture_data agriculture_csv))
  /\ (~ In "Entity" (load_obesity_data obesity_csv)
      /\ ~ In obesity_raw_column (load_obesity_data obesity_csv))
  /\ (forall name,
         In name consumption_csv ->
         strip (str_replace_quote name) <> name ->
         ~ In name (load_consumption_data consumption_csv))
  /\ (In "Entity" meat_csv -> In meat_raw_column meat_csv ->
      In "Country" (load_meat_data meat_csv)
      /\ In "Meat_Production" (load_meat_data meat_csv))
  /\ (In "Entity" agriculture_csv -> In "Land use: Agriculture" agriculture_csv ->
      In "Country" (load_agriculture_data agriculture_csv)
      /\ In "Agricultural_Area" (load_agriculture_data agriculture_csv))
  /\ (In "Entity" obesity_csv -> In obesity_raw_column obesity_csv ->
      In "Country" (load_obesity_data obesity_csv)
      /\ In "Obesity" (load_obesity_data obesity_csv))
  /\ ((exists name, In name consumption_csv
                    /\ strip (str_replace_quote name) = "Country") ->
      In "Country" (load_consumption_data consumption_csv)).
Proof.
  repeat match goal with |- _ /\ _ => split end.
  - apply rename_removes_key; [simpl; tauto | not_among].
  - apply rename_removes_key; [simpl; tauto | not_among].
  - apply rename_removes_key; [simpl; tauto | not_among].
  - apply rename_removes_key; [simpl; tauto | not_among].
  - unfold load_obesity_data. intros Hin.
    apply rename_keeps_other in Hin; [| not_among | not_among].
    revert Hin. apply rename_removes_key; [simpl; tauto | not_among].
  - apply rename_removes_key; [simpl; tauto | not_among].
  - intros name _ Hchanged Hin. unfold load_consumption_data in Hin.
    apply in_map_iff in Hin. destruct Hin as [name0 [Heq _]].
    apply Hchanged. rewrite <- Heq. apply clean_header_idempotent.
  - intros He Hv. split.
    + now apply (rename_adds_value _ _ "Entity").
    + now apply (rename_adds_value _ _ meat_raw_column).
  - intros He Hv. split.
    + now apply (rename_adds_value _ _ "Entity").
    + now apply (rename_adds_value _ _ "Land use: Agriculture").
  - intros He Hv. unfold load_obesity_data. split.
    + apply (rename_adds_value _ _ "Country"); [| reflexivity].
      now apply (rename_adds_value _ _ "Entity").
    + apply (rename_adds_value _ _ obesity_raw_column); [| reflexivity].
      now apply (rename_adds_value _ _ obesity_raw_column).
  - intros [name [Hin Heq]]. unfold load_consumption_data.
    rewrite <- Heq. now apply (in_map (fun n => strip (str_replace_quote n))).
Qed.

Local Close Scope string_scope.

(** ** Sorting by value, descending *)

Lemma number_leb_total (x y : number) :
  number_leb x y = false -> number_leb y x = true.
Proof.
  destruct x as [a | |], y as [b | |]; simpl; try discriminate; try reflexivity.
  intros H. apply Qle_bool_iff.
  destruct (Qlt_le_dec b a) as [Hlt | Hle].
  - now apply Qlt_le_weak.
  - apply Qle_bool_iff in Hle. congruence.
Qed.

Lemma number_leb_trans (x y z : number) :
  number_leb x y = true -> number_leb y z = true -> number_leb x z = true.
Proof.
  destruct x as [a | |], y as [b | |], z as [c | |]; simpl;
    try discriminate; try reflexivity.
  rewrite !Qle_bool_iff. intros H1 H2. eapply Qle_trans; eassumption.
Qed.

Lemma ge_value_total (a b : option number) :
  ge_value a b = false -> ge_value b a = true.
Proof.
  destruct a as [x |], b as [y |]; simpl; try discriminate; try reflexivity.
  apply number_leb_total.
Qed.

Lemma ge_value_trans (a b c : option number) :
  ge_value a b = true -> ge_value b c = true -> ge_value a c = true.
Proof.
  destruct a as [x |], b as [y |], c as [z |]; simpl;
    try discriminate; try reflexivity.
  intros H1 H2. eapply number_leb_trans; eassumption.
Qed.

Section SortValues.

Context {A : Type} (by_ : A -> option number).

Lemma insert_desc_perm (x : A) (l : list A) :
  Permutation (x :: l) (insert_desc by_ x l).
Proof.
  induction l as [| y l IH]; simpl; [reflexivity |].
  destruct (ge_value (by_ x) (by_ y)); [reflexivity |].
  rewrite perm_swap. now constructor.
Qed.

Lemma sort_values_desc_perm (frame : list A) :
  Permutation frame (sort_values_desc by_ frame).
Proof.
  induction frame as [| x l IH]; simpl; [constructor |].
  rewrite <- insert_desc_perm. now constructor.
Qed.

Lemma insert_desc_sorted (x : A) (l : list A) :
  StronglySorted (desc by_) l -> StronglySorted (desc by_) (insert_desc by_ x l).
Proof.
  induction 1 as [| y l Hs IH Hall]; simpl.
  - repeat constructor.
  - destruct (ge_value (by_ x) (by_ y)) eqn:Hxy.
    + constructor; [now constructor |].
      constructor; [exact Hxy |].
      eapply Forall_impl; [| exact Hall].
      intros z Hz. eapply ge_value_trans; eassumption.
    + constructor; [exact IH |].
      apply Forall_forall. intros z Hz.
      apply (Permutation_in _ (Permutation_sym (insert_desc_perm x l))) in Hz.
      destruct Hz as [<- | Hz].
      * now apply ge_value_total.
      * rewrite Forall_forall in Hall. now apply Hall.
Qed.

Lemma sort_values_desc_sorted (frame : list A) :
  StronglySorted (desc by_) (sort_values_desc by_ frame).
Proof.
  induction frame as [| x l IH]; simpl; [constructor | now apply insert_desc_sorted].
Qed.

(** The head of a sorted frame is sorted, and each of its rows may stand
    before each row left out. *)
Lemma head_sorted (n : nat) (l : list A) :
  StronglySorted (desc by_) l -> StronglySorted (desc by_) (head n l).
Proof.
  unfold head. intros Hs. revert n.
  induction Hs as [| y l Hs IH Hall]; intros [| n]; simpl; try constructor.
  - apply IH.
  - rewrite Forall_forall in *. intros z Hz. apply Hall.
    rewrite <- (firstn_skipn n l). apply in_or_app. now left.
Qed.

Lemma head_dominates (n : nat) (l : list A) :
  StronglySorted (desc by_) l ->
  Forall (fun s => Forall (fun r => desc by_ s r) (skipn n l)) (head n l).
Proof.
  unfold head. intros Hs. revert n.
  induction Hs as [| y l Hs IH Hall]; intros [| n]; simpl; try constructor.
  - rewrite Forall_forall in *. intros z Hz. apply Hall.
    rewrite <- (firstn_skipn n l). apply in_or_app. now right.
  - apply IH.
Qed.

Lemma head_length (n : nat) (l : list A) : List.length (head n l) = Nat.min n (List.length l).
Proof. unfold head. apply length_firstn. Qed.

Lemma head_incl (n : nat) (l : list A) (x : A) : In x (head n l) -> In x l.
Proof.
  unfold head. intros H. rewrite <- (firstn_skipn n l). apply in_or_app. now left.
Qed.

End SortValues.

Lemma head_NoDup_map {A B : Type} (f : A -> B) (n : nat) (l : list A) :
  NoDup (map f l) -> NoDup (map f (head n l)).
Proof.
  unfold head. intros H. rewrite <- (firstn_skipn n l), map_app in H.
  now apply NoDup_app_remove_r in H.
Qed.

(** ** The most recent year *)

Lemma fold_max_ge (l : list Z) (a : Z) :
  (a <= fold_left Z.max l a)%Z /\ Forall (fun y => (y <= fold_left Z.max l a)%Z) l.
Proof.
  revert a. induction l as [| y l IH]; intros a; simpl.
  - split; [lia | constructor].
  - destruct (IH (Z.max a y)) as [H1 H2]. split; [lia |].
    constructor; [lia | exact H2].
Qed.

Lemma fold_max_In (l : list Z) (a : Z) : In (fold_left Z.max l a) (a :: l).
Proof.
  revert a. induction l as [| y l IH]; intros a; simpl; [now left |].
  destruct (IH (Z.max a y)) as [H | H].
  - rewrite <- H.
    destruct (Z.max_spec a y) as [[_ Hm] | [_ Hm]]; rewrite Hm; auto.
  - auto.
Qed.

Lemma Year_max_spec {V : Type} (data : list (row V)) (y : Z) :
  Year_max data = Some y ->
  (exists r, In r data /\ Year r = y) /\ Forall (fun r => (Year r <= y)%Z) data.
Proof.
  destruct data as [| r0 rest]; simpl; [discriminate |].
  intros H. inversion H as [Hy]. clear H. split.
  - destruct (fold_max_In (map Year rest) (Year r0)) as [H | H].
    + exists r0. split; [now left | exact H].
    + apply in_map_iff in H. destruct H as [r [Hr Hin]].
      exists r. split; [now right | exact Hr].
  - destruct (fold_max_ge (map Year rest) (Year r0)) as [H1 H2].
    constructor; [exact H1 |].
    rewrite Forall_forall in *. intros r Hr. apply H2. now apply in_map.
Qed.

Lemma Year_max_nonempty {V : Type} (data : list (row V)) :
  data <> [] -> exists y, Year_max data = Some y.
Proof. destruct data; [congruence | simpl; eauto]. Qed.

(** ** Meat consumption: the table of the histogram *)

Lemma dtype_object_spec (data : list consumption_row) :
  dtype_object (map Kilograms_capita data) = true
  <-> data = [] \/ exists r, In r data /\ is_str (Kilograms_capita r) = true.
Proof.
  destruct data as [| r0 rest]; [simpl; intuition |].
  change (dtype_object (map Kilograms_capita (r0 :: rest)))
    with (existsb is_str (map Kilograms_capita (r0 :: rest))).
  rewrite existsb_exists. split.
  - intros [c [Hc Hs]]. right. apply in_map_iff in Hc.
    destruct Hc as [r [<- Hr]]. now exists r.
  - intros [H | [r [Hr Hs]]]; [discriminate |].
    exists (Kilograms_capita r). split; [now apply in_map | exact Hs].
Qed.

Lemma nlargest_Some (n : nat) (data : list consumption_row)
  (table : list consumption_row) :
  nlargest n data = Some table ->
  table = head n (sort_values_desc consumption_value data).
Proof.
  unfold nlargest. destruct (dtype_object (map Kilograms_capita data));
    [discriminate | congruence].
Qed.

(** C4, as the code has it.  For a dataset that is not empty and whose
    column holds no string the table of the histogram exists (for the
    others [nlargest] raises).  The table has at most 10 rows, all of them
    rows of the dataset, in descending order of [Kilograms/capita] (missing
    values last); and it repeats no country when the dataset repeats
    none. *)
Theorem top_5_table (data : list consumption_row) :
  (data <> [] ->
   (forall r, In r data -> is_str (Kilograms_capita r) = false) ->
   exists table, top_5 data = Some table)
  /\ (forall table,
         top_5 data = Some table ->
         (List.length table <= 10)%nat
         /\ StronglySorted (desc consumption_value) table
         /\ (forall r, In r table -> In r data)
         /\ (NoDup (map cons_Country data) -> NoDup (map cons_Country table))).
Proof.
  pose proof (sort_values_desc_perm consumption_value data) as Hperm.
  pose proof (sort_values_desc_sorted consumption_value data) as Hsorted.
  split.
  - intros Hne Hnum. unfold top_5, nlargest.
    destruct (dtype_object (map Kilograms_capita data)) eqn:Hobj;
      [| eexists; reflexivity].
    exfalso. apply dtype_object_spec in Hobj.
    destruct Hobj as [Hempty | [r [Hr Hs]]]; [contradiction |].
    rewrite (Hnum r Hr) in Hs. discriminate.
  - intros table H. unfold top_5 in H. apply nlargest_Some in H.
    set (sorted := sort_values_desc consumption_value data) in *.
    subst table.
    split; [| split; [| split]].
    + rewrite head_length. apply Nat.le_min_l.
    + now apply head_sorted.
    + intros r Hr. apply head_incl in Hr.
      eapply Permutation_in; [apply Permutation_sym; exact Hperm | exact Hr].
    + intros Hnd. apply head_NoDup_map.
      eapply Permutation_NoDup; [apply Permutation_map; exact Hperm | exact Hnd].
Qed.

(** ** Obesity: the selected countries and the plotted frame *)

Lemma recent_data_In (data : list (row (option number))) (r : row (option number)) :
  In r (recent_data data)
  <-> In r data /\ recent_year data = Some (Year r) /\ ~ In (Country r) continents.
Proof.
  unfold recent_data. destruct (recent_year data) as [y |].
  - rewrite !filter_In, negb_true_iff, Z.eqb_eq, <- not_true_iff_false, isin_In.
    split.
    + intros [[H1 H2] H3]. subst. tauto.
    + intros [H1 [H2 H3]]. inversion H2. tauto.
  - split; [intros [] | intros [_ [H _]]; discriminate].
Qed.

(** With one row per (Year, Country) pair, the rows of the most recent
    year have different countries. *)
Lemma recent_countries_distinct (data : list (row (option number))) :
  NoDup (map key_of data) -> NoDup (map Country (recent_data data)).
Proof.
  intros Hnd.
  assert (Hkeys : NoDup (map key_of (recent_data data))).
  { unfold recent_data. destruct (recent_year data); [| constructor].
    now apply filter_keeps_distinct, filter_keeps_distinct. }
  replace (map Country (recent_data data))
    with (map snd (map key_of (recent_data data)))
    by (rewrite map_map; reflexivity).
  apply NoDup_map_injective; [| exact Hkeys].
  intros a b Ha Hb Hsnd.
  apply in_map_iff in Ha, Hb.
  destruct Ha as [ra [<- Hra]], Hb as [rb [<- Hrb]].
  apply recent_data_In in Hra, Hrb.
  destruct Hra as [_ [Hya _]], Hrb as [_ [Hyb _]].
  unfold key_of in *. simpl in *. congruence.
Qed.

(** C3, as the code has it.  In the Obesity view the rows considered are
    those of the dataset's highest year with a country not in [continents].
    The selected list holds the countries of the 10 rows of the highest
    [Obesity] among them, or of all of them when they are fewer than 10, in
    descending order of [Obesity]; every row left out has a value no higher
    than each row selected (a missing value counts as the lowest).  The
    list has 10 entries when at least 10 rows are considered, and it names
    no country twice when the dataset has at most one row per
    (Year, Country) pair. *)
Theorem top_10_countries_highest (data : list (row (option number))) :
  let selected := top_10_rows data in
  top_10_countries data = map Country selected
  /\ List.length (top_10_countries data)
     = Nat.min 10 (List.length (recent_data data))
  /\ StronglySorted (desc Value) selected
  /\ (exists rest,
         Permutation (recent_data data) (selected ++ rest)
         /\ Forall (fun s => Forall (fun r => desc Value s r) rest) selected)
  /\ (forall r,
         In r (recent_data data)
         <-> In r data /\ recent_year data = Some (Year r)
             /\ ~ In (Country r) continents)
  /\ (forall y, recent_year data = Some y ->
                (exists r, In r data /\ Year r = y)
                /\ Forall (fun r => (Year r <= y)%Z) data)
  /\ ((10 <= List.length (recent_data data))%nat ->
      List.length (top_10_countries data) = 10%nat)
  /\ (NoDup (map key_of data) -> NoDup (top_10_countries data)).
Proof.
  cbv zeta.
  pose proof (sort_values_desc_perm Value (recent_data data)) as Hperm.
  pose proof (sort_values_desc_sorted Value (recent_data data)) as Hsorted.
  assert (Hlen : List.length (top_10_countries data)
                 = Nat.min 10 (List.length (recent_data data))).
  { unfold top_10_countries, top_10_rows.
    rewrite length_map, head_length.
    now rewrite <- (Permutation_length Hperm). }
  split; [reflexivity |]. split; [exact Hlen |].
  split; [now apply head_sorted |].
  split.
  { exists (skipn 10 (sort_values_desc Value (recent_data data))). split.
    - unfold top_10_rows, head. now rewrite firstn_skipn.
    - now apply head_dominates. }
  split; [apply recent_data_In |].
  split; [intros y Hy; now apply Year_max_spec |].
  split; [intros H; rewrite Hlen; lia |].
  intros Hnd. unfold top_10_countries, top_10_rows.
  apply head_NoDup_map.
  eapply Permutation_NoDup; [apply Permutation_map; exact Hperm |].
  now apply recent_countries_distinct.
Qed.

(** C8, as the code has it.  The frame given to the line chart holds the
    rows of the dataset whose country is selected, of every year: no row is
    of a year after the most recent one, and none is removed for its year.
    1980 and the most recent year are the range of the x axis. *)
Theorem obesity_figure_frame (data : list (row (option number))) :
  (forall r,
      In r (data_frame (obesity_figure data))
      <-> In r data /\ In (Country r) (top_10_countries data))
  /\ range_x (obesity_figure data) = (1980%Z, recent_year data)
  /\ (forall y, recent_year data = Some y ->
                Forall (fun r => (Year r <= y)%Z) (data_frame (obesity_figure data))).
Proof.
  simpl. unfold filtered_df. split; [| split; [reflexivity |]].
  - intros r. now rewrite filter_In, isin_In.
  - intros y Hy. apply Year_max_spec in Hy. destruct Hy as [_ Hall].
    rewrite Forall_forall in *. intros r Hr. apply filter_In in Hr.
    apply Hall. tauto.
Qed.

(** ** The properties at the sample inputs *)

Local Open Scope string_scope.

(** The resolver at two names, the first of which is not found. *)
Example get_country_coordinates_sample :
  get_country_coordinates sample_geocode ["India"; "China"]
  = [ mkCoordinate "India" None None;
      mkCoordinate "China" (Some (20 # 1)) (Some (77 # 1)) ].
Proof. reflexivity. Qed.

(** The map input for 1600: the row of India is dropped with its missing
    coordinates, the row of France is not of a country of interest, and the
    two values that are no numbers are missing. *)
Example filtered_data_sample :
  filtered_data sample_geocode sample_parse_number agriculture_sample 1600
                (selected_countries Agricultural_Land_Use)
  = [ mkMapRow (mkRow 1600%Z "China" None) (Some (20 # 1)) (Some (77 # 1));
      mkMapRow (mkRow 1600%Z "Brazil" None) (Some (20 # 1)) (Some (77 # 1)) ].
Proof. reflexivity. Qed.

(** The line-chart input: keys in increasing order, the two rows of China
    for 1700 summed, a group of missing values summed to 0, the row of 1500
    left out, the row of India kept. *)
Example line_graph_data_sample :
  line_graph_data sample_parse_number Agricultural_Land_Use agriculture_sample
                  (selected_countries Agricultural_Land_Use)
  = [ mkRow 1600%Z "Brazil" (Some (Finite (0 # 1)));
      mkRow 1600%Z "China" (Some (Finite (0 # 1)));
      mkRow 1600%Z "India" (Some (Finite (5 # 1)));
      mkRow 1700%Z "China" (Some (Finite (25 # 2))) ].
Proof. reflexivity. Qed.

(** The histogram's table: descending, the missing value last. *)
Example top_5_sample :
  top_5 consumption_sample
  = Some [ mkConsumption "Argentina" (CNum (Finite (47 # 1)));
           mkConsumption "Brazil" (CNum (Finite (35 # 1)));
           mkConsumption "Chad" CNaN ].
Proof. reflexivity. Qed.

(** The ten countries selected at the sample dataset. *)
Example top_10_countries_sample :
  top_10_countries obesity_sample
  = [ "Nauru"; "Palau"; "Tuvalu"; "Tonga"; "Samoa"; "Kiribati"; "Kuwait";
      "Jordan"; "Qatar"; "Egypt" ].
Proof. reflexivity. Qed.

(** The consumption loader at a header with quotes and a blank. *)
Example load_consumption_data_sample :
  load_consumption_data consumption_csv_sample = ["Country"; "Kilograms/capita"].
Proof. reflexivity. Qed.

(** The coercion at a frame of one row whose value is the string n/a. *)
Lemma to_numeric_coerce_sample :
  Value (data_row (coerce_map_row sample_parse_number
                     (mkMapRow (mkRow 1600%Z "China" (CStr "n/a"))
                               (Some (20 # 1)) (Some (77 # 1)))))
  = None.
Proof.
  pose proof (to_numeric_coerce sample_parse_number
                [mkMapRow (mkRow 1600%Z "China" (CStr "n/a"))
                          (Some (20 # 1)) (Some (77 # 1))]) as H.
  simpl in H. apply Forall2_cons_iff in H.
  destruct H as [[_ [_ [_ [_ [Hmissing _]]]]] _].
  apply (Hmissing "n/a"); reflexivity.
Defined.

(** The loaders at the sample headers: the raw names are present, so the
    canonical names are. *)
Lemma loaders_canonical_columns_sample :
  (In "Country" (load_meat_data meat_csv_sample)
   /\ In "Meat_Production" (load_meat_data meat_csv_sample))
  /\ (In "Country" (load_agriculture_data agriculture_csv_sample)
      /\ In "Agricultural_Area" (load_agriculture_data agriculture_csv_sample))
  /\ (In "Country" (load_obesity_data obesity_csv_sample)
      /\ In "Obesity" (load_obesity_data obesity_csv_sample))
  /\ In "Country" (load_consumption_data consumption_csv_sample).
Proof.
  destruct (loaders_canonical_columns meat_csv_sample agriculture_csv_sample
              consumption_csv_sample obesity_csv_sample)
    as [_ [_ [_ [_ [Hmeat [Hagri [Hobes Hcons]]]]]]].
  split; [| split; [| split]].
  - apply Hmeat; simpl; tauto.
  - apply Hagri; simpl; tauto.
  - apply Hobes; simpl; tauto.
  - apply Hcons.
    exists (String quote ("Country" ++ String quote EmptyString)).
    split; [simpl; tauto | reflexivity].
Defined.

(** C6 fails as stated: a country with the values inf and -inf in one year
    has a sum that is missing, and the sums of the sums have 0 there. *)
Lemma groupby_sum_not_idempotent :
  line_graph_data sample_parse_number Meat_Production opposite_infinities
                  (selected_countries Meat_Production)
  = [mkRow 2000%Z "India" None]
  /\ groupby_sum [mkRow 2000%Z "India" None]
     = [mkRow 2000%Z "India" (Some (Finite (0 # 1)))]
  /\ groupby_sum (groupby_sum
                    (map (coerce_row sample_parse_number) opposite_infinities))
     <> groupby_sum (map (coerce_row sample_parse_number) opposite_infinities).
Proof.
  split; [reflexivity |]. split; [reflexivity |].
  vm_compute. discriminate.
Qed.

(** The sums of the sample dataset have no missing value, and are their own
    sums. *)
Lemma groupby_sum_twice_sample :
  groupby_sum (groupby_sum (map (coerce_row sample_parse_number) agriculture_sample))
  = groupby_sum (map (coerce_row sample_parse_number) agriculture_sample).
Proof.
  destruct (groupby_sum_twice
              (map (coerce_row sample_parse_number) agriculture_sample))
    as [_ [Hiff _]].
  apply Hiff. vm_compute. repeat constructor; discriminate.
Defined.

(** Agricultural land use at the sample dataset, which has a row of 1500. *)
Lemma agricultural_land_use_from_1600_sample :
  Forall (fun m => (1600 <= Year (data_row m))%Z)
         (filtered_data sample_geocode sample_parse_number agriculture_sample 1600
                        (selected_countries Agricultural_Land_Use))
  /\ Forall (fun r => (1600 <= Year r)%Z)
            (line_graph_data sample_parse_number Agricultural_Land_Use
                             agriculture_sample
                             (selected_countries Agricultural_Land_Use)).
Proof.
  destruct (agricultural_land_use_from_1600 sample_geocode sample_parse_number
              agriculture_sample) as [Hmap [Hline _]].
  split.
  - apply Hmap. reflexivity.
  - apply (Hline 1600%Z). reflexivity.
Defined.

(** The row of India, which the sample geocoder does not find, has its
    (Year, Country) pair in the line-chart input. *)
Lemma line_graph_independent_of_geocoding_sample :
  exists r,
    In r (line_graph_data sample_parse_number Agricultural_Land_Use
                          agriculture_sample
                          (selected_countries Agricultural_Land_Use))
    /\ Year r = 1600%Z /\ Country r = "India".
Proof.
  destruct (line_graph_independent_of_geocoding sample_geocode (fun _ => None)
              sample_parse_number Agricultural_Land_Use agriculture_sample 1600%Z)
    as [_ [_ [Hcomplete _]]].
  apply (Hcomplete (mkRow 1600%Z "India" (CNum (Finite (5 # 1))))).
  - simpl. tauto.
  - simpl. tauto.
  - right. split; [reflexivity | simpl; lia].
Defined.

(** The histogram's table at a dataset of twelve countries: the table
    exists, and the ten rows of the highest values are kept. *)
Lemma top_5_table_sample :
  exists table,
    top_5 consumption_twelve = Some table
    /\ List.length table = 10%nat
    /\ map cons_Country table
       = [ "Argentina"; "Zimbabwe"; "United States"; "Australia"; "Brazil";
           "Israel"; "Chile"; "Canada"; "Kazakhstan"; "Uruguay" ]
    /\ NoDup (map cons_Country table).
Proof.
  destruct (top_5_table consumption_twelve) as [Hsome Hprops].
  destruct Hsome as [table Htable].
  - discriminate.
  - intros r Hr. simpl in Hr.
    repeat (destruct Hr as [<- | Hr]; [reflexivity |]). destruct Hr.
  - exists table. split; [exact Htable |].
    destruct (Hprops table Htable) as [_ [_ [_ Hnodup]]].
    assert (Heq : Some table = top_5 consumption_twelve) by (symmetry; exact Htable).
    vm_compute in Heq. injection Heq as Heq.
    split; [rewrite Heq; reflexivity |].
    split; [rewrite Heq; reflexivity |].
    apply Hnodup. unfold consumption_twelve. simpl map.
    repeat (constructor; [not_among |]). constructor.
Defined.

(** C4 fails as stated: a dataset with two rows for Argentina gives a table
    with two rows for Argentina. *)
Lemma top_5_repeats_country :
  exists table,
    top_5 consumption_repeated = Some table
    /\ table = [ mkConsumption "Argentina" (CNum (Finite (50 # 1)));
                 mkConsumption "Argentina" (CNum (Finite (47 # 1)));
                 mkConsumption "Brazil" (CNum (Finite (35 # 1))) ]
    /\ ~ NoDup (map cons_Country table).
Proof.
  eexists. split; [reflexivity |]. split; [reflexivity |].
  vm_compute. intros H. inversion H as [| x l Hnotin _]; subst.
  apply Hnotin. now left.
Qed.

(** The obesity view at the sample dataset, which has twelve rows to choose
    from. *)
Lemma top_10_countries_highest_sample :
  List.length (top_10_countries obesity_sample) = 10%nat
  /\ NoDup (top_10_countries obesity_sample)
  /\ StronglySorted (desc Value) (top_10_rows obesity_sample).
Proof.
  destruct (top_10_countries_highest obesity_sample)
    as [_ [_ [Hsorted [_ [_ [_ [Hten Hdistinct]]]]]]].
  split; [apply Hten; vm_compute; lia |].
  split; [| exact Hsorted].
  apply Hdistinct. apply all_distinct_NoDup. reflexivity.
Defined.

(** C3 fails as stated: with a second row for Nauru in 2016 there are more
    than 10 rows to choose from, yet the list names 9 countries, Nauru
    twice; Egypt, whose value only 9 countries exceed, is left out. *)
Lemma top_10_countries_repeats_country :
  (10 <= List.length (recent_data obesity_repeated))%nat
  /\ top_10_countries obesity_repeated
     = [ "Nauru"; "Nauru"; "Palau"; "Tuvalu"; "Tonga"; "Samoa"; "Kiribati";
         "Kuwait"; "Jordan"; "Qatar" ]
  /\ ~ NoDup (top_10_countries obesity_repeated)
  /\ In (mkRow 2016%Z "Egypt" (Some (Finite (32 # 1)))) (recent_data obesity_repeated)
  /\ ~ In "Egypt" (top_10_countries obesity_repeated).
Proof.
  split; [vm_compute; lia |].
  assert (Heq : top_10_countries obesity_repeated
                = [ "Nauru"; "Nauru"; "Palau"; "Tuvalu"; "Tonga"; "Samoa";
                    "Kiribati"; "Kuwait"; "Jordan"; "Qatar" ]) by reflexivity.
  split; [exact Heq |]. rewrite Heq.
  split; [| split].
  - intros H. inversion H as [| x l Hnotin _]; subst. apply Hnotin. now left.
  - vm_compute. tauto.
  - not_among.
Qed.

(** C8 fails as stated: the row of Nauru for 1975 is in the plotted
    frame. *)
Lemma obesity_figure_before_1980 :
  exists r,
    In r (data_frame (obesity_figure obesity_sample))
    /\ (Year r < 1980)%Z.
Proof.
  exists (mkRow 1975%Z "Nauru" (Some (Finite (40 # 1)))). split; [| reflexivity].
  vm_compute. left. reflexivity.
Qed.

(** The plotted frame at the sample dataset: no row is after 2016. *)
Lemma obesity_figure_frame_sample :
  Forall (fun r => (Year r <= 2016)%Z) (data_frame (obesity_figure obesity_sample)).
Proof.
  destruct (obesity_figure_frame obesity_sample) as [_ [_ Hmax]].
  apply Hmax. reflexivity.
Defined.

Local Close Scope string_scope.

(** * Part III: further properties of the script *)

(** ** The map input, row by row *)

Lemma filter_no_match (geocode : string -> option Location)
  (countries : list string) (c : string) :
  ~ In c countries ->
  filter (fun cc => String.eqb (coord_Country cc) c)
         (map (coordinate_of geocode) countries) = [].
Proof.
  induction countries as [| c0 cs IH]; simpl; [reflexivity |].
  intros Hnotin. rewrite coordinate_of_Country.
  destruct (String.eqb_spec c0 c) as [-> | Hne].
  - exfalso. apply Hnotin. now left.
  - apply IH. intros H. apply Hnotin. now right.
Qed.

(** In the coordinates of a list without repetition, a country of the list
    has one row. *)
Lemma filter_one_match (geocode : string -> option Location)
  (countries : list string) (c : string) :
  NoDup countries -> In c countries ->
  filter (fun cc => String.eqb (coord_Country cc) c)
         (map (coordinate_of geocode) countries) = [coordinate_of geocode c].
Proof.
  induction 1 as [| c0 cs Hnotin Hnd IH]; simpl; [intros [] |].
  rewrite coordinate_of_Country. intros [-> | Hin].
  - rewrite String.eqb_refl. f_equal. now apply filter_no_match.
  - destruct (String.eqb_spec c0 c) as [-> | Hne]; [contradiction | now apply IH].
Qed.

Lemma located_row_merge (geocode : string -> option Location)
  (parse_number : string -> option number) (countries : list string) (r : row cell) :
  NoDup countries -> In (Country r) countries ->
  dropna (map (coerce_map_row parse_number)
              (merge_row (get_country_coordinates geocode countries) r))
  = located_row geocode parse_number r.
Proof.
  intros Hnd Hin. unfold merge_row.
  rewrite get_country_coordinates_map, (filter_one_match _ _ _ Hnd Hin).
  unfold located_row, coordinate_of.
  destruct (geocode (Country r)); reflexivity.
Qed.

Lemma dropna_app {V : Type} (a b : list (map_row V)) :
  dropna (a ++ b) = dropna a ++ dropna b.
Proof. unfold dropna. apply filter_app. Qed.

(** X1.  When the list of countries has no repetition, the map input is, in
    the order of the dataset, one row for each row of the selected year and
    of a listed country that the geocoder finds, with the coordinates the
    geocoder gives for its country and its value made numeric: the merge
    repeats no row and changes no order, and the rows dropped are those of
    the countries the geocoder does not find. *)
Theorem filtered_data_located_rows (geocode : string -> option Location)
  (parse_number : string -> option number) (data : list (row cell)) (year : Z)
  (countries : list string) :
  NoDup countries ->
  filtered_data geocode parse_number data year countries
  = flat_map (located_row geocode parse_number)
             (filter_year_country data year countries).
Proof.
  intros Hnd. unfold filtered_data.
  assert (Hall : Forall (fun r => In (Country r) countries)
                        (filter_year_country data year countries)).
  { apply Forall_forall. intros r Hr. apply filter_year_country_In in Hr. tauto. }
  induction Hall as [| r rows Hr Hrows IH]; [reflexivity |].
  unfold merge. simpl. rewrite map_app, dropna_app.
  rewrite (located_row_merge _ _ _ _ Hnd Hr). f_equal. exact IH.
Qed.

(** ** The groups of [groupby_sum] *)

Lemma insert_key_length (k : key) (ks : list key) :
  (List.length (insert_key k ks) <= S (List.length ks))%nat.
Proof.
  induction ks as [| k' ks IH]; simpl; [lia |].
  destruct (key_compare k k'); simpl; lia.
Qed.

Lemma group_keys_length (ks : list key) :
  (List.length (group_keys ks) <= List.length ks)%nat.
Proof.
  induction ks as [| k ks IH]; simpl; [lia |].
  pose proof (insert_key_length k (group_keys ks)). lia.
Qed.

(** X2.  The frame [groupby_sum] returns has its (Year, Country) pairs in
    strictly increasing order, by year and then by country, each pair once;
    its pairs are exactly the pairs of the input frame; and it has no more
    rows than the input. *)
Theorem groupby_sum_groups (frame : list (row (option number))) :
  StronglySorted key_lt (map key_of (groupby_sum frame))
  /\ NoDup (map key_of (groupby_sum frame))
  /\ (forall k, In k (map key_of (groupby_sum frame)) <-> In k (map key_of frame))
  /\ (List.length (groupby_sum frame) <= List.length frame)%nat.
Proof.
  rewrite groupby_sum_keys.
  split; [apply group_keys_sorted |].
  split; [apply sorted_keys_NoDup, group_keys_sorted |].
  split; [intros k; apply group_keys_In |].
  rewrite <- (length_map key_of (groupby_sum frame)), groupby_sum_keys.
  rewrite <- (length_map key_of frame). apply group_keys_length.
Qed.

(** Two lists of keys in strictly increasing order with the same members are
    the same list. *)
Lemma sorted_keys_unique (l1 l2 : list key) :
  StronglySorted key_lt l1 -> StronglySorted key_lt l2 ->
  (forall k, In k l1 <-> In k l2) -> l1 = l2.
Proof.
  intros H1. revert l2. induction H1 as [| a l1 Hs1 IH Ha]; intros l2 H2 Hmem.
  - destruct l2 as [| b l2]; [reflexivity |].
    exfalso. apply (proj2 (Hmem b)). now left.
  - destruct H2 as [| b l2 Hs2 Hb].
    + exfalso. apply (proj1 (Hmem a)). now left.
    + rewrite Forall_forall in Ha, Hb.
      assert (Hab : a = b).
      { destruct (proj1 (Hmem a) (or_introl eq_refl)) as [Hba | Hin2]; [now subst |].
        destruct (proj2 (Hmem b) (or_introl eq_refl)) as [Hab | Hin1]; [assumption |].
        exfalso. apply (key_lt_irrefl a).
        eapply key_lt_trans; [apply Ha; exact Hin1 | apply Hb; exact Hin2]. }
      subst b. f_equal. apply IH; [exact Hs2 |].
      intros k. split; intros Hk.
      * destruct (proj1 (Hmem k) (or_intror Hk)) as [<- | Hin]; [| exact Hin].
        exfalso. exact (key_lt_irrefl _ (Ha _ Hk)).
      * destruct (proj2 (Hmem k) (or_intror Hk)) as [<- | Hin]; [| exact Hin].
        exfalso. exact (key_lt_irrefl _ (Hb _ Hk)).
Qed.

(** X3.  The groups and their order do not depend on the order of the rows:
    two frames with the same rows in any order give the same list of
    (Year, Country) pairs. *)
Theorem groupby_sum_keys_row_order (frame1 frame2 : list (row (option number))) :
  Permutation frame1 frame2 ->
  map key_of (groupby_sum frame1) = map key_of (groupby_sum frame2).
Proof.
  intros Hperm. rewrite !groupby_sum_keys.
  apply sorted_keys_unique; try apply group_keys_sorted.
  intros k. rewrite !group_keys_In.
  split; apply Permutation_in; [| apply Permutation_sym];
    now apply Permutation_map.
Qed.

Lemma insert_key_perm (k : key) (ks : list key) :
  ~ In k ks -> Permutation (k :: ks) (insert_key k ks).
Proof.
  induction ks as [| k' ks IH]; simpl; [reflexivity |].
  intros Hnotin. destruct (key_compare k k') eqn:Hc.
  - apply key_compare_eq in Hc. exfalso. apply Hnotin. now left.
  - reflexivity.
  - rewrite perm_swap. constructor. apply IH. intros H. apply Hnotin. now right.
Qed.

Lemma group_keys_perm (ks : list key) : NoDup ks -> Permutation ks (group_keys ks).
Proof.
  induction 1 as [| k ks Hnotin Hnd IH]; simpl; [constructor |].
  rewrite <- insert_key_perm; [now constructor |].
  now rewrite group_keys_In.
Qed.

(** In a frame with one row per key, the group of a row is the row. *)
Lemma filter_key_of_row (frame : list (row (option number))) (r : row (option number)) :
  NoDup (map key_of frame) -> In r frame ->
  filter (fun r' => key_eqb (key_of r') (key_of r)) frame = [r].
Proof.
  induction frame as [| r0 frame IH]; simpl; [intros _ [] |].
  intros Hnd Hin. inversion Hnd as [| ? ? Hnotin Hnd']; subst.
  assert (Hnone : forall r1 : row (option number),
            ~ In (key_of r1) (map key_of frame) ->
            filter (fun r' => key_eqb (key_of r') (key_of r1)) frame = []).
  { intros r1 Hr1. clear -Hr1. induction frame as [| r2 frame IHf]; simpl; [reflexivity |].
    destruct (key_eqb (key_of r2) (key_of r1)) eqn:He.
    - apply key_eqb_eq in He. exfalso. apply Hr1. left. exact He.
    - apply IHf. intros H. apply Hr1. now right. }
  destruct Hin as [-> | Hin].
  - rewrite key_eqb_refl. f_equal. now apply Hnone.
  - destruct (key_eqb (key_of r0) (key_of r)) eqn:He.
    + apply key_eqb_eq in He. exfalso. apply Hnotin. rewrite He. now apply in_map.
    + now apply IH.
Qed.

Lemma group_row_of_row (frame : list (row (option number))) (r : row (option number)) :
  NoDup (map key_of frame) -> In r frame ->
  group_row frame (key_of r) = fillna_zero r.
Proof.
  intros Hnd Hin. unfold group_row. rewrite (filter_key_of_row frame r Hnd Hin).
  unfold fillna_zero. simpl map. now rewrite sum_skipna_single.
Qed.

(** X4.  On a frame with at most one row per (Year, Country) pair the sum
    is a no-op but for two things: the rows come out in the order of their
    pairs, and a missing value comes out as 0.  The output has the rows of
    the input, each once. *)
Theorem groupby_sum_unique_keys (frame : list (row (option number))) :
  NoDup (map key_of frame) ->
  Permutation (groupby_sum frame) (map fillna_zero frame)
  /\ List.length (groupby_sum frame) = List.length frame.
Proof.
  intros Hnd.
  assert (Hperm : Permutation (groupby_sum frame) (map fillna_zero frame)).
  { rewrite groupby_sum_unfold.
    rewrite <- (Permutation_map (group_row frame) (group_keys_perm _ Hnd)).
    rewrite map_map.
    erewrite map_ext_in; [reflexivity |].
    intros r Hr. now apply group_row_of_row. }
  split; [exact Hperm |].
  rewrite (Permutation_length Hperm). apply length_map.
Qed.

Lemma sum_skipna_missing (values : list (option number)) :
  Forall (fun v => v = None) values -> sum_skipna values = Some number_zero.
Proof.
  intros Hall. unfold sum_skipna. generalize (Some number_zero).
  induction Hall as [| v values Hv Hall IH]; intros acc; simpl; [reflexivity |].
  subst v. apply IH.
Qed.

(** X5.  A (Year, Country) pair all of whose values are missing is not left
    out of the sums: it has a row, with the value 0. *)
Theorem groupby_sum_missing_group (frame : list (row (option number)))
  (year : Z) (country : string) :
  (exists r, In r frame /\ Year r = year /\ Country r = country) ->
  (forall r, In r frame -> Year r = year -> Country r = country -> Value r = None) ->
  In (mkRow year country (Some (Finite (0 # 1)))) (groupby_sum frame).
Proof.
  intros [r0 [Hin0 [Hy0 Hc0]]] Hmissing.
  rewrite groupby_sum_unfold.
  apply in_map_iff. exists (year, country). split.
  - unfold group_row. simpl. f_equal. fold number_zero.
    apply sum_skipna_missing. apply Forall_forall. intros v Hv.
    apply in_map_iff in Hv. destruct Hv as [r [<- Hr]].
    apply filter_In in Hr. destruct Hr as [Hr Hk].
    apply key_eqb_eq in Hk. unfold key_of in Hk. inversion Hk.
    now apply Hmissing.
  - apply group_keys_In. apply in_map_iff. exists r0.
    split; [unfold key_of; now subst | exact Hin0].
Qed.

(** ** The lines of the line chart *)

Lemma plot_lines_loop (frame : list (row (option number))) (countries : list string)
  (acc : list plotted_line) :
  fold_left (fun lines country => lines ++ [plot_country frame country])
            countries acc
  = acc ++ map (plot_country frame) countries.
Proof.
  revert acc. induction countries as [| c cs IH]; intros acc; simpl.
  - now rewrite app_nil_r.
  - rewrite IH, <- app_assoc. reflexivity.
Qed.

Lemma plot_lines_map (frame : list (row (option number))) (countries : list string) :
  plot_lines frame countries = map (plot_country frame) countries.
Proof. unfold plot_lines. now rewrite plot_lines_loop. Qed.

(** In a frame in the order of its keys, the years of one country
    increase. *)
Lemma country_years_increasing (frame : list (row (option number))) (country : string) :
  StronglySorted key_lt (map key_of frame) ->
  StronglySorted Z.lt (map Year (country_data frame country)).
Proof.
  induction frame as [| r frame IH]; simpl; [constructor |].
  intros Hs. inversion Hs as [| ? ? Hs' Hall]; subst.
  destruct (String.eqb_spec (Country r) country) as [Hc | Hc]; [| now apply IH].
  simpl. constructor; [now apply IH |].
  apply Forall_forall. intros y Hy. apply in_map_iff in Hy.
  destruct Hy as [r' [<- Hr']]. apply filter_In in Hr'.
  destruct Hr' as [Hin Heq]. apply String.eqb_eq in Heq.
  rewrite Forall_forall in Hall.
  specialize (Hall (key_of r') (in_map key_of _ _ Hin)).
  unfold key_lt, key_compare, key_of in Hall. simpl in Hall.
  rewrite Hc, Heq, string_compare_refl in Hall.
  destruct (Z.compare (Year r) (Year r')) eqn:Hcmp; try discriminate.
  now apply Z.compare_lt_iff.
Qed.

Lemma list_sum_zero {A : Type} (l : list A) : list_sum (map (fun _ => 0%nat) l) = 0%nat.
Proof. induction l; simpl; auto. Qed.

Lemma list_sum_plus {A : Type} (f g : A -> nat) (l : list A) :
  list_sum (map (fun a => (f a + g a)%nat) l)
  = (list_sum (map f l) + list_sum (map g l))%nat.
Proof. induction l as [| a l IH]; simpl; [reflexivity | rewrite IH; lia]. Qed.

(** A country of a list without repetition is counted once. *)
Lemma count_once (countries : list string) (c : string) :
  NoDup countries -> In c countries ->
  list_sum (map (fun c' => if String.eqb c c' then 1%nat else 0%nat) countries) = 1%nat.
Proof.
  induction 1 as [| c0 cs Hnotin Hnd IH]; simpl; [intros [] |].
  intros [-> | Hin].
  - rewrite String.eqb_refl. f_equal.
    clear IH Hnd. induction cs as [| c1 cs IHcs]; simpl; [reflexivity |].
    destruct (String.eqb_spec c c1) as [-> | _].
    + exfalso. apply Hnotin. now left.
    + apply IHcs. intros H. apply Hnotin. now right.
  - destruct (String.eqb_spec c c0) as [-> | _]; [contradiction | now apply IH].
Qed.

(** Every row of a frame whose countries are listed belongs to the rows of
    one listed country. *)
Lemma country_data_count (frame : list (row (option number))) (countries : list string) :
  NoDup countries ->
  Forall (fun r => In (Country r) countries) frame ->
  list_sum (map (fun c => List.length (country_data frame c)) countries)
  = List.length frame.
Proof.
  intros Hnd. induction 1 as [| r frame Hr Hall IH].
  - apply list_sum_zero.
  - change (List.length (r :: frame)) with (1 + List.length frame)%nat.
    rewrite <- IH, <- (count_once countries (Country r) Hnd Hr).
    rewrite <- (list_sum_plus
                  (fun c' => if String.eqb (Country r) c' then 1%nat else 0%nat)
                  (fun c => List.length (country_data frame c))).
    f_equal. apply map_ext. intros c. unfold country_data. simpl.
    destruct (String.eqb (Country r) c); reflexivity.
Qed.

Lemma selected_countries_NoDup (dataset : dataset_choice) :
  NoDup (selected_countries dataset).
Proof.
  destruct dataset; unfold selected_countries;
    repeat (constructor; [not_among |]); constructor.
Qed.

Lemma line_graph_data_Country (parse_number : string -> option number)
  (dataset : dataset_choice) (data : list (row cell)) (countries : list string) :
  Forall (fun r => In (Country r) countries)
         (line_graph_data parse_number dataset data countries).
Proof.
  apply Forall_forall. intros r Hr. apply line_graph_data_In in Hr.
  destruct Hr as [r0 [_ [_ [Hc [Hin _]]]]]. now rewrite <- Hc.
Qed.

(** X6.  The line chart of a dataset has one line per country of interest,
    in the order of the list, labelled with the country, also for a country
    with no row.  On each line the years strictly increase, so a year has at
    most one point, and a line has a y value for each of its years.  Every
    row of [line_graph_data] is a point of exactly one line: the lines have
    as many points together as the frame has rows. *)
Theorem line_chart_lines (parse_number : string -> option number)
  (dataset : dataset_choice) (data : list (row cell)) :
  let lines := line_chart parse_number dataset data in
  map label lines = selected_countries dataset
  /\ Forall (fun line =>
               StronglySorted Z.lt (xdata line)
               /\ List.length (xdata line) = List.length (ydata line))
            lines
  /\ list_sum (map (fun line => List.length (xdata line)) lines)
     = List.length (line_graph_data parse_number dataset data
                                    (selected_countries dataset)).
Proof.
  cbv zeta. unfold line_chart. rewrite plot_lines_map.
  set (frame := line_graph_data parse_number dataset data (selected_countries dataset)).
  split; [| split].
  - rewrite map_map. simpl. apply map_id.
  - apply Forall_forall. intros line Hline. apply in_map_iff in Hline.
    destruct Hline as [c [<- _]]. simpl. split.
    + apply country_years_increasing.
      unfold frame, line_graph_data. rewrite groupby_sum_keys.
      apply group_keys_sorted.
    + now rewrite !length_map.
  - rewrite map_map. simpl.
    rewrite <- (country_data_count frame (selected_countries dataset)).
    + f_equal. apply map_ext. intros c. apply length_map.
    + apply selected_countries_NoDup.
    + apply line_graph_data_Country.
Qed.

(** X7.  For agricultural land use, every point of every line lies within
    the limits set for the x axis: from 1600 to the highest year of the
    dataset. *)
Theorem agricultural_lines_within_xlim (parse_number : string -> option number)
  (data : list (row cell)) (highest : Z) :
  snd (agricultural_xlim data) = Some highest ->
  Forall (fun line =>
            Forall (fun year => (fst (agricultural_xlim data) <= year <= highest)%Z)
                   (xdata line))
         (line_chart parse_number Agricultural_Land_Use data).
Proof.
  simpl. intros Hmax. apply Year_max_spec in Hmax. destruct Hmax as [_ Hle].
  unfold line_chart. rewrite plot_lines_map.
  apply Forall_forall. intros line Hline. apply in_map_iff in Hline.
  destruct Hline as [c [<- _]]. simpl.
  apply Forall_forall. intros y Hy. apply in_map_iff in Hy.
  destruct Hy as [r [<- Hr]]. apply filter_In in Hr. destruct Hr as [Hr _].
  apply line_graph_data_In in Hr.
  destruct Hr as [r0 [Hin [Hy [_ [_ Hfloor]]]]].
  rewrite Forall_forall in Hle. specialize (Hle r0 Hin).
  specialize (Hfloor eq_refl). lia.
Qed.

(** ** The year slider *)





(** ** The loaders: what they keep *)

Lemma dict_get_not_key (mapper : list (string * string)) (name : string) :
  ~ In name (map fst mapper) -> dict_get mapper name = name.
Proof.
  induction mapper as [| [k v] rest IH]; simpl; [reflexivity |].
  intros Hnotin. destruct (String.eqb_spec name k) as [-> | _].
  - exfalso. apply Hnotin. now left.
  - apply IH. intros H. apply Hnotin. now right.
Qed.

(** The item a key is renamed by. *)
Lemma dict_get_item (mapper : list (string * string)) (name : string) :
  In name (map fst mapper) -> In (name, dict_get mapper name) mapper.
Proof.
  induction mapper as [| [k v] rest IH]; simpl; [intros [] |].
  intros Hin. destruct (String.eqb_spec name k) as [-> | Hne].
  - now left.
  - right. apply IH. destruct Hin as [Heq | Hin]; [now subst | exact Hin].
Qed.

Lemma item_same_value (mapper : list (string * string)) (a b v : string) :
  NoDup (map snd mapper) -> In (a, v) mapper -> In (b, v) mapper -> a = b.
Proof.
  induction mapper as [| [k w] rest IH]; simpl; [intros _ [] |].
  intros Hnd Ha Hb. inversion Hnd as [| ? ? Hnotin Hnd']; subst.
  destruct Ha as [Ha | Ha], Hb as [Hb | Hb].
  - congruence.
  - inversion Ha; subst. exfalso. apply Hnotin.
    apply (in_map snd) in Hb. exact Hb.
  - inversion Hb; subst. exfalso. apply Hnotin.
    apply (in_map snd) in Ha. exact Ha.
  - now apply IH.
Qed.

(** A mapper whose new names are all different, none of them a column
    already, makes no two columns the same. *)
Lemma rename_NoDup (mapper : list (string * string)) (columns : list string) :
  NoDup (map snd mapper) ->
  (forall v, In v (map snd mapper) -> ~ In v columns) ->
  NoDup columns -> NoDup (rename mapper columns).
Proof.
  intros Hvalues Hfresh. unfold rename. apply NoDup_map_injective.
  intros a b Ha Hb Heq.
  destruct (dict_get_cases mapper a) as [Hva | [Hfa Hka]];
    destruct (dict_get_cases mapper b) as [Hvb | [Hfb Hkb]].
  - assert (Hka : In a (map fst mapper)).
    { destruct (in_dec string_dec a (map fst mapper)) as [H | H]; [exact H |].
      exfalso. rewrite (dict_get_not_key _ _ H) in Hva. exact (Hfresh a Hva Ha). }
    assert (Hkb : In b (map fst mapper)).
    { destruct (in_dec string_dec b (map fst mapper)) as [H | H]; [exact H |].
      exfalso. rewrite (dict_get_not_key _ _ H) in Hvb. exact (Hfresh b Hvb Hb). }
    apply dict_get_item in Hka, Hkb. rewrite Heq in Hka.
    eapply item_same_value; eassumption.
  - exfalso. rewrite Heq, Hfb in Hva. exact (Hfresh b Hva Hb).
  - exfalso. rewrite <- Heq, Hfa in Hvb. exact (Hfresh a Hvb Ha).
  - congruence.
Qed.

Lemma dict_get_idempotent (mapper : list (string * string)) (name : string) :
  (forall v, In v (map snd mapper) -> ~ In v (map fst mapper)) ->
  dict_get mapper (dict_get mapper name) = dict_get mapper name.
Proof.
  intros Hdisjoint.
  destruct (dict_get_cases mapper name) as [Hv | [Hf _]].
  - apply dict_get_not_key. now apply Hdisjoint.
  - now rewrite Hf.
Qed.

Local Open Scope string_scope.

(** X9.  The loaders keep the columns they do not rename: the header has as
    many names after as before, and a name that is not one the loader
    renames stays at its place, the column [Year] among them. *)
Theorem loaders_keep_columns (csv_columns : list string) :
  (List.length (load_meat_data csv_columns) = List.length csv_columns
   /\ List.length (load_agriculture_data csv_columns) = List.length csv_columns
   /\ List.length (load_obesity_data csv_columns) = List.length csv_columns
   /\ List.length (load_consumption_data csv_columns) = List.length csv_columns)
  /\ (forall i name,
         nth_error csv_columns i = Some name ->
         name <> "Entity" ->
         (name <> meat_raw_column ->
          nth_error (load_meat_data csv_columns) i = Some name)
         /\ (name <> "Land use: Agriculture" ->
             nth_error (load_agriculture_data csv_columns) i = Some name)
         /\ (name <> obesity_raw_column ->
             nth_error (load_obesity_data csv_columns) i = Some name)).
Proof.
  split.
  - unfold load_meat_data, load_agriculture_data, load_obesity_data,
      load_consumption_data, rename.
    now rewrite !length_map.
  - intros i name Hi He.
    unfold load_meat_data, load_agriculture_data, load_obesity_data, rename.
    rewrite !nth_error_map, Hi. simpl.
    destruct (String.eqb_spec name "Entity") as [| _]; [contradiction |].
    split; [| split]; intros Hv.
    + destruct (String.eqb_spec name meat_raw_column); [contradiction | reflexivity].
    + destruct (String.eqb_spec name "Land use: Agriculture");
        [contradiction | reflexivity].
    + destruct (String.eqb_spec name obesity_raw_column); [contradiction | reflexivity].
Qed.

(** X10.  Loading is idempotent on headers: a header a loader has produced
    is left as it is by the same loader. *)
Theorem loaders_idempotent (csv_columns : list string) :
  load_meat_data (load_meat_data csv_columns) = load_meat_data csv_columns
  /\ load_agriculture_data (load_agriculture_data csv_columns)
     = load_agriculture_data csv_columns
  /\ load_obesity_data (load_obesity_data csv_columns)
     = load_obesity_data csv_columns
  /\ load_consumption_data (load_consumption_data csv_columns)
     = load_consumption_data csv_columns.
Proof.
  split; [| split; [| split]].
  - unfold load_meat_data, rename. rewrite map_map. apply map_ext.
    intros name. apply dict_get_idempotent. intros v Hv. revert v Hv.
    simpl. intros v [<- | [<- | []]]; not_among.
  - unfold load_agriculture_data, rename. rewrite map_map. apply map_ext.
    intros name. apply dict_get_idempotent. intros v Hv. revert v Hv.
    simpl. intros v [<- | [<- | []]]; not_among.
  - unfold load_obesity_data, rename. rewrite !map_map. apply map_ext.
    intros name.
    set (d1 := dict_get [("Entity", "Country")]).
    set (d2 := dict_get [(obesity_raw_column, "Obesity")]).
    assert (H1 : d1 (d2 (d1 name)) = d2 (d1 name)).
    { apply dict_get_not_key.
      destruct (dict_get_cases [(obesity_raw_column, "Obesity")] (d1 name))
        as [Hv | [Hf _]].
      - fold d2 in Hv. simpl in Hv. destruct Hv as [<- | []]. not_among.
      - fold d2 in Hf. rewrite Hf.
        destruct (dict_get_cases [("Entity", "Country")] name) as [Hv | [Hg Hk]].
        + fold d1 in Hv. simpl in Hv. destruct Hv as [<- | []]. not_among.
        + fold d1 in Hg. now rewrite Hg. }
    rewrite H1. unfold d2. apply dict_get_idempotent.
    simpl. intros v [<- | []]; not_among.
  - unfold load_consumption_data. rewrite map_map. apply map_ext.
    intros name. apply clean_header_idempotent.
Qed.

(** X11.  A loader that renames makes no two columns the same when the
    header repeats no name and has none of the loader's new names yet. *)
Theorem loaders_no_repeated_column (csv_columns : list string) :
  NoDup csv_columns -> ~ In "Country" csv_columns ->
  (~ In "Meat_Production" csv_columns -> NoDup (load_meat_data csv_columns))
  /\ (~ In "Agricultural_Area" csv_columns ->
      NoDup (load_agriculture_data csv_columns))
  /\ (~ In "Obesity" csv_columns -> NoDup (load_obesity_data csv_columns)).
Proof.
  intros Hnd Hcountry.
  assert (Hone : forall a : string, NoDup [a])
    by (intros a; constructor; [intros [] | constructor]).
  assert (Htwo : forall a b : string, a <> b -> NoDup [a; b]).
  { intros a b Hab. constructor; [| apply Hone]. intros [H | []]. now subst. }
  split; [| split]; intros Hvalue.
  - apply rename_NoDup; [apply Htwo; apply String.eqb_neq; reflexivity | | exact Hnd].
    simpl. intros v [<- | [<- | []]]; assumption.
  - apply rename_NoDup; [apply Htwo; apply String.eqb_neq; reflexivity | | exact Hnd].
    simpl. intros v [<- | [<- | []]]; assumption.
  - unfold load_obesity_data. apply rename_NoDup; [apply Hone | |].
    + simpl. intros v [<- | []] Hin. apply rename_keeps_other in Hin.
      * contradiction.
      * not_among.
      * not_among.
    + apply rename_NoDup; [apply Hone | | exact Hnd].
      simpl. intros v [<- | []]. assumption.
Qed.

Local Close Scope string_scope.

(** ** The header of the consumption dataset *)

Lemma lstrip_first (s : string) (c : ascii) (t : string) :
  lstrip s = String c t -> isspace c = false.
Proof.
  induction s as [| a s IH]; simpl; [discriminate |].
  destruct (isspace a) eqn:Ha; [exact IH |].
  intros H. inversion H; subst. exact Ha.
Qed.

Lemma last_char_cons (a : ascii) (s : string) :
  s <> EmptyString -> last_char (String a s) = last_char s.
Proof. destruct s; [congruence | reflexivity]. Qed.

Lemma lstrip_last (s : string) :
  lstrip s <> EmptyString -> last_char (lstrip s) = last_char s.
Proof.
  induction s as [| a s IH]; [reflexivity |].
  change (lstrip (String a s)) with (if isspace a then lstrip s else String a s).
  destruct (isspace a); [| reflexivity].
  intros Hne. rewrite (IH Hne). symmetry. apply last_char_cons.
  intros ->. now apply Hne.
Qed.

Lemma rstrip_last (s : string) (c : ascii) :
  last_char (rstrip s) = Some c -> isspace c = false.
Proof.
  induction s as [| a s IH]; simpl; [discriminate |].
  destruct (rstrip s) as [| d u] eqn:Hs.
  - destruct (isspace a) eqn:Ha; simpl; [discriminate |].
    intros H. inversion H; subst. exact Ha.
  - exact IH.
Qed.

Lemma strip_trimmed (s : string) : trimmed (strip s).
Proof.
  unfold trimmed, strip. split.
  - intros c t. apply lstrip_first.
  - intros c Hc. destruct (lstrip (rstrip s)) as [| a t] eqn:Hl; [discriminate |].
    rewrite <- Hl in Hc. rewrite lstrip_last in Hc; [| rewrite Hl; discriminate].
    now apply rstrip_last in Hc.
Qed.

Lemma rstrip_fixed (s : string) :
  (forall c, last_char s = Some c -> isspace c = false) -> rstrip s = s.
Proof.
  induction s as [| a s IH]; [reflexivity |].
  intros Hlast. destruct s as [| d u].
  - simpl. now rewrite (Hlast a eq_refl).
  - change (rstrip (String a (String d u))) with
      (match rstrip (String d u) with
       | EmptyString => if isspace a then EmptyString else String a EmptyString
       | String d' u' => String a (String d' u')
       end).
    now rewrite (IH Hlast).
Qed.

Lemma strip_fixed (s : string) : trimmed s -> strip s = s.
Proof.
  intros [Hfirst Hlast]. unfold strip. rewrite (rstrip_fixed s Hlast).
  destruct s as [| a t]; [reflexivity |].
  simpl. now rewrite (Hfirst a t eq_refl).
Qed.

(** X12.  The names the consumption loader returns have no double quote and
    no blank at either end, and a name of the file in ASCII that has neither
    already is returned as it is, at its place. *)
Theorem load_consumption_data_names (csv_columns : list string) :
  Forall (fun name => quote_free name /\ trimmed name)
         (load_consumption_data csv_columns)
  /\ (forall i name,
         nth_error csv_columns i = Some name ->
         ascii_only name -> quote_free name -> trimmed name ->
         nth_error (load_consumption_data csv_columns) i = Some name).
Proof.
  unfold load_consumption_data. split.
  - apply Forall_forall. intros name Hin. apply in_map_iff in Hin.
    destruct Hin as [raw [<- _]]. split; [| apply strip_trimmed].
    unfold strip. apply lstrip_quote_free, rstrip_quote_free, str_replace_quote_free.
  - intros i name Hi _ Hq Ht. rewrite nth_error_map, Hi. simpl.
    now rewrite (str_replace_quote_fixed name Hq), (strip_fixed name Ht).
Qed.

(** ** The largest rows *)

(** X13.  [nlargest] fails exactly when the dataset is empty or the column
    holds a string, the two cases in which the column has dtype [object].
    Otherwise it returns [n] rows, or all of them when the dataset has
    fewer, and each row left out has a value no higher than each row
    returned (a missing value counts as the lowest): with the rows left out,
    the table is the dataset in another order. *)
Theorem nlargest_rows (n : nat) (data : list consumption_row) :
  (nlargest n data = None
   <-> data = [] \/ exists r, In r data /\ is_str (Kilograms_capita r) = true)
  /\ (forall table,
         nlargest n data = Some table ->
         List.length table = Nat.min n (List.length data)
         /\ exists rest,
             Permutation data (table ++ rest)
             /\ Forall (fun s => Forall (fun r => desc consumption_value s r) rest)
                       table).
Proof.
  pose proof (sort_values_desc_perm consumption_value data) as Hperm.
  pose proof (sort_values_desc_sorted consumption_value data) as Hsorted.
  split.
  - rewrite <- dtype_object_spec. unfold nlargest.
    destruct (dtype_object (map Kilograms_capita data));
      split; intros H; try reflexivity; discriminate.
  - intros table H. apply nlargest_Some in H.
    set (sorted := sort_values_desc consumption_value data) in *.
    subst table. split.
    + rewrite head_length, (Permutation_length Hperm). reflexivity.
    + exists (skipn n sorted). split.
      * unfold head. now rewrite firstn_skipn.
      * now apply head_dominates.
Qed.

(** ** Obesity: the countries selected and the rows plotted *)



(** X15.  When the dataset has at most one row per (Year, Country) pair, no
    country is selected twice. *)
Theorem top_10_countries_distinct (data : list (row (option number))) :
  NoDup (map key_of data) -> NoDup (top_10_countries data).
Proof.
  intros Hnd. unfold top_10_countries, top_10_rows.
  apply head_NoDup_map.
  eapply Permutation_NoDup;
    [apply Permutation_map, sort_values_desc_perm |].
  assert (Hkeys : NoDup (map key_of (recent_data data))).
  { unfold recent_data. destruct (recent_year data); [| constructor].
    now apply filter_keeps_distinct, filter_keeps_distinct. }
  replace (map Country (recent_data data))
    with (map snd (map key_of (recent_data data)))
    by (rewrite map_map; reflexivity).
  apply NoDup_map_injective; [| exact Hkeys].
  intros a b Ha Hb Hsnd.
  apply in_map_iff in Ha, Hb.
  destruct Ha as [ra [<- Hra]], Hb as [rb [<- Hrb]].
  apply recent_data_In in Hra, Hrb.
  destruct Hra as [_ [Hya _]], Hrb as [_ [Hyb _]].
  unfold key_of in *. simpl in *. congruence.
Qed.

(** ** The map and the line chart together *)

(** X16.  A row of the map input has its (Year, Country) pair in the
    line-chart input of the same dataset: for meat production always, for
    agricultural land use when the selected year is 1600 or later.  What the
    map shows for a year, the line chart shows too. *)
Theorem map_rows_in_line_chart (geocode : string -> option Location)
  (parse_number : string -> option number) (dataset : dataset_choice)
  (data : list (row cell)) (year : Z) (m : map_row (option number)) :
  dataset = Meat_Production
  \/ (dataset = Agricultural_Land_Use /\ (1600 <= year)%Z) ->
  In m (filtered_data geocode parse_number data year (selected_countries dataset)) ->
  exists r,
    In r (line_graph_data parse_number dataset data (selected_countries dataset))
    /\ Year r = Year (data_row m) /\ Country r = Country (data_row m).
Proof.
  intros Hd Hm. apply filtered_data_In in Hm.
  destruct Hm as [r0 [Hr0 [Heq _]]].
  apply filter_year_country_In in Hr0. destruct Hr0 as [Hin [Hy Hc]].
  destruct (line_graph_data_complete parse_number dataset data
              (selected_countries dataset) r0 Hin Hc) as [r [Hr [Hyr Hcr]]].
  - destruct Hd as [-> | [-> Hle]]; [now left | right]. split; [reflexivity | lia].
  - exists r. rewrite Heq. simpl. auto.
Qed.

(** ** The further properties at the sample inputs *)

Local Open Scope string_scope.

Lemma filtered_data_located_rows_sample :
  filtered_data sample_geocode sample_parse_number agriculture_sample 1600
                (selected_countries Agricultural_Land_Use)
  = flat_map (located_row sample_geocode sample_parse_number)
             (filter_year_country agriculture_sample 1600
                                  (selected_countries Agricultural_Land_Use)).
Proof.
  apply filtered_data_located_rows. apply selected_countries_NoDup.
Defined.

Lemma groupby_sum_keys_row_order_sample :
  map key_of (groupby_sum unique_keys_sample)
  = map key_of (groupby_sum (rev unique_keys_sample)).
Proof.
  apply groupby_sum_keys_row_order. apply Permutation_rev.
Defined.

Lemma unique_keys_sample_NoDup : NoDup (map key_of unique_keys_sample).
Proof.
  simpl. repeat constructor; simpl; intuition discriminate.
Defined.

Lemma groupby_sum_unique_keys_sample :
  Permutation (groupby_sum unique_keys_sample) (map fillna_zero unique_keys_sample)
  /\ List.length (groupby_sum unique_keys_sample) = 3%nat.
Proof.
  exact (groupby_sum_unique_keys unique_keys_sample unique_keys_sample_NoDup).
Defined.

Lemma groupby_sum_missing_group_sample :
  In (mkRow 2016%Z "Japan" (Some (Finite (0 # 1)))) (groupby_sum unique_keys_sample).
Proof.
  apply groupby_sum_missing_group.
  - exists (mkRow 2016%Z "Japan" None). simpl. tauto.
  - intros r [<- | [<- | [<- | []]]]; simpl; intros Hy Hc;
      try reflexivity; discriminate.
Defined.

Lemma line_chart_lines_sample :
  map label (line_chart sample_parse_number Agricultural_Land_Use agriculture_sample)
  = selected_countries Agricultural_Land_Use.
Proof.
  exact (proj1 (line_chart_lines sample_parse_number Agricultural_Land_Use
                                 agriculture_sample)).
Defined.

Lemma agricultural_lines_within_xlim_sample :
  Forall (fun line => Forall (fun year => (1600 <= year <= 1700)%Z) (xdata line))
         (line_chart sample_parse_number Agricultural_Land_Use agriculture_sample).
Proof.
  apply (agricultural_lines_within_xlim sample_parse_number agriculture_sample 1700%Z).
  reflexivity.
Defined.


Lemma loaders_keep_columns_sample :
  nth_error (load_meat_data meat_csv_sample) 2 = Some "Year"
  /\ nth_error (load_agriculture_data meat_csv_sample) 2 = Some "Year"
  /\ nth_error (load_obesity_data meat_csv_sample) 2 = Some "Year".
Proof.
  destruct (loaders_keep_columns meat_csv_sample) as [_ Hkeep].
  assert (Hne : forall a b : string, String.eqb a b = false -> a <> b)
    by (intros a b H; now apply String.eqb_neq).
  assert (He : "Year" <> "Entity") by (apply Hne; reflexivity).
  destruct (Hkeep 2%nat "Year" eq_refl He) as [H1 [H2 H3]].
  split; [| split]; [apply H1 | apply H2 | apply H3]; apply Hne; reflexivity.
Defined.

Lemma loaders_no_repeated_column_sample : NoDup (load_meat_data meat_csv_sample).
Proof.
  assert (Hnd : NoDup meat_csv_sample).
  { unfold meat_csv_sample. repeat (constructor; [not_among |]). constructor. }
  assert (Hc : ~ In "Country" meat_csv_sample) by (unfold meat_csv_sample; not_among).
  assert (Hv : ~ In "Meat_Production" meat_csv_sample)
    by (unfold meat_csv_sample; not_among).
  exact (proj1 (loaders_no_repeated_column meat_csv_sample Hnd Hc) Hv).
Defined.

Lemma load_consumption_data_names_sample :
  nth_error (load_consumption_data ["Country"; "Kilograms/capita"]) 1
  = Some "Kilograms/capita".
Proof.
  destruct (load_consumption_data_names ["Country"; "Kilograms/capita"])
    as [_ Hkept].
  apply Hkept;
    [reflexivity
    | simpl; repeat split; apply Nat.ltb_lt; reflexivity
    | simpl; tauto |].
  split.
  - intros c t H. inversion H. reflexivity.
  - intros c H. simpl in H. inversion H. reflexivity.
Defined.

Lemma nlargest_rows_sample :
  exists table,
    nlargest 2 consumption_sample = Some table /\ List.length table = 2%nat.
Proof.
  eexists. split; [reflexivity |].
  destruct (nlargest_rows 2 consumption_sample) as [_ Hrows].
  destruct (Hrows _ eq_refl) as [Hlen _]. exact Hlen.
Defined.


Lemma top_10_countries_distinct_sample :
  NoDup (top_10_countries unique_keys_sample).
Proof.
  exact (top_10_countries_distinct unique_keys_sample unique_keys_sample_NoDup).
Defined.

Lemma map_rows_in_line_chart_sample :
  exists r,
    In r (line_graph_data sample_parse_number Agricultural_Land_Use
                          agriculture_sample
                          (selected_countries Agricultural_Land_Use))
    /\ Year r = 1600%Z /\ Country r = "China".
Proof.
  apply (map_rows_in_line_chart sample_geocode sample_parse_number
           Agricultural_Land_Use agriculture_sample 1600%Z
           (mkMapRow (mkRow 1600%Z "China" None) (Some (20 # 1)) (Some (77 # 1)))).
  - right. split; [reflexivity | lia].
  - vm_compute. now left.
Defined.

Local Close Scope string_scope.
